(** * med_reminder.py: the escalating medication reminder

    A shallow embedding of [src/med_reminder.py] (class [MedReminder]) and the
    properties of its daily log, completion check, confirmation dialog and
    reminder cycle.

    The program talks to a file ([~/med_log.json]), the wall clock, the
    desktop (notify-send, the alarm sound, a Tk dialog) and sleeps.  It is
    embedded as a state-and-exception monad over a [world] that holds the
    file, the clock, what the user and other processes will do while the
    program is blocked, and the history of what the program did. *)

From Stdlib Require Import ZArith String Ascii DecimalString DecimalNat Lia.
From stdpp Require Import gmap strings list fin_maps.

Set Warnings "-register-all".

(** ** JSON documents, as [json.load] returns them *)

Inductive json :=
| JNull
| JBool (b : bool)
| JInt (z : Z)
| JFloat (lexeme : string)
| JStr (s : string)
| JList (l : list json)
| JDict (m : gmap string json).

(** ** Exceptions and results *)

Inductive exn :=
| FileNotFoundError
| JSONDecodeError
| TypeError
| KeyError (key : string)
| AttributeError (attr : string)
| TclError.

(** [NoFuel] is not a Python outcome: it marks a [while] loop of the model
    that was given too few iterations ([run_reminder_cycle_fuel] shows that
    the cycle never yields it). *)
Inductive result (A : Type) :=
| Ok (a : A)
| Raise (e : exn)
| NoFuel.
Arguments Ok {A} a.
Arguments Raise {A} e.
Arguments NoFuel {A}.

(** ** Fragments of Python's dynamic semantics used on the loaded log *)

Module Py.

Fixpoint is_substring (needle hay : string) : bool :=
  String.prefix needle hay ||
  match hay with
  | EmptyString => false
  | String _ rest => is_substring needle rest
  end.

(** [key in container] *)
Definition contains (container : json) (key : string) : result bool :=
  match container with
  | JDict m => Ok (match m !! key with Some _ => true | None => false end)
  | JList l =>
      Ok (existsb (λ x, match x with JStr s => String.eqb s key | _ => false end) l)
  | JStr s => Ok (is_substring key s)
  | _ => Raise TypeError
  end.

(** [container[key]] with a string key *)
Definition getitem (container : json) (key : string) : result json :=
  match container with
  | JDict m => match m !! key with Some v => Ok v | None => Raise (KeyError key) end
  | _ => Raise TypeError
  end.

(** [container[key] = v] with a string key *)
Definition setitem (container : json) (key : string) (v : json) : result json :=
  match container with
  | JDict m => Ok (JDict (<[key := v]> m))
  | _ => Raise TypeError
  end.

(** [obj.get(key, default)] *)
Definition get (obj : json) (key : string) (default : json) : result json :=
  match obj with
  | JDict m => Ok (match m !! key with Some v => v | None => default end)
  | _ => Raise (AttributeError "get")
  end.

(** A byte [10xxxxxx]: it continues a character of UTF-8. *)
Definition is_continuation (a : ascii) : bool :=
  match a with Ascii _ _ _ _ _ _ b6 b7 => b7 && negb b6 end.

(** The characters (code points) of a string, which is held here as its
    UTF-8 bytes: the bytes that do not continue a character. *)
Fixpoint code_points (s : string) : nat :=
  match s with
  | EmptyString => 0
  | String a rest => (if is_continuation a then 0 else 1) + code_points rest
  end.

(** [len(obj)]; a string counts its characters *)
Definition len (obj : json) : result nat :=
  match obj with
  | JList l => Ok (length l)
  | JStr s => Ok (code_points s)
  | JDict m => Ok (size m)
  | _ => Raise TypeError
  end.

(** [str(n)] for a natural number *)
Definition str (n : nat) : string := NilZero.string_of_uint (Nat.to_uint n).

Fixpoint zeros (n : nat) : string :=
  match n with 0 => "" | S k => "0" +:+ zeros k end.

(** zero padding as [strftime] and [isoformat] do it *)
Definition zfill (width n : nat) : string :=
  let s := str n in zeros (width - String.length s) +:+ s.

Definition newline : string := String (ascii_of_nat 10) "".

Fixpoint join (sep : string) (parts : list string) : string :=
  match parts with
  | [] => ""
  | [p] => p
  | p :: rest => p +:+ sep +:+ join sep rest
  end.

End Py.

(** ** The clock *)

Record datetime := {
  year : nat; month : nat; day : nat;
  hour : nat; minute : nat; second : nat; microsecond : nat
}.

(** [strftime("%Y-%m-%d")], for the years of four digits *)
Definition strftime_Ymd (t : datetime) : string :=
  Py.zfill 4 (year t) +:+ "-" +:+ Py.zfill 2 (month t) +:+ "-" +:+ Py.zfill 2 (day t).

(** [isoformat()]: the microseconds are left out when they are zero *)
Definition isoformat (t : datetime) : string :=
  strftime_Ymd t +:+ "T" +:+ Py.zfill 2 (hour t) +:+ ":" +:+ Py.zfill 2 (minute t)
    +:+ ":" +:+ Py.zfill 2 (second t)
    +:+ (if Nat.eqb (microsecond t) 0 then "" else "." +:+ Py.zfill 6 (microsecond t)).

(** ** The world *)

(** The log file: not there, there with text [json.load] rejects (empty,
    truncated, not JSON), or there with a document.  A stored document is
    identified with what [json.load] gives back for what [json.dump] wrote.
    A file that cannot be opened for another reason than its absence, or
    whose bytes are not text, is not among the files of the model. *)
Inductive file :=
| Missing
| Corrupt
| Stored (doc : json).

(** What happens outside the program while it is blocked: in a dialog, in
    the "Success" box, while the alarm sounds (the players and the pauses
    between them) or in [time.sleep].  Another process may rewrite (or
    remove) the log file, and the clock moves.  Between two such points the
    program is taken to run in no time. *)
Record outside := {
  file_becomes : option file;
  clock_becomes : option datetime
}.

(** What reaches the Tk main loop while the dialog is open. [ClickTaken]
    carries the state of the check boxes, one per medicine, in order. *)
Inductive gui_event :=
| ClickTaken (boxes : list bool)
| ClickSnooze
| CloseWindow
| MainloopTclError
| Meanwhile (o : outside).

Inductive urgency := normal | critical.

(** What the program does to the world, in the order it does it. *)
Inductive event :=
| Print (line : string)
| ReadLog (found : file)
| WriteLog (doc : json)
| NotifySend (u : urgency) (timeout_ms : string) (message : string) (delivered : bool)
| AlarmSound
| Dialog (bg : string) (title : string) (label : string) (boxes : list string)
| ShowInfo (title text : string)
| ShowWarning (title text : string)
| CallbackTraceback (e : exn)
| Sleep (seconds : nat)
| Elsewhere (o : outside).

Record world := {
  log_file_content : file;
  now : datetime;
  notify_send_works : bool;
  dialogs : list (list gui_event);
  sleeps : list outside;
  history : list event
}.

Definition emit (e : event) (w : world) : world :=
  {| log_file_content := log_file_content w; now := now w;
     notify_send_works := notify_send_works w;
     dialogs := dialogs w; sleeps := sleeps w;
     history := e :: history w |}.

Definition put_file (f : file) (w : world) : world :=
  {| log_file_content := f; now := now w;
     notify_send_works := notify_send_works w;
     dialogs := dialogs w; sleeps := sleeps w;
     history := history w |}.

Definition put_clock (t : datetime) (w : world) : world :=
  {| log_file_content := log_file_content w; now := t;
     notify_send_works := notify_send_works w;
     dialogs := dialogs w; sleeps := sleeps w;
     history := history w |}.

Definition put_dialogs (d : list (list gui_event)) (w : world) : world :=
  {| log_file_content := log_file_content w; now := now w;
     notify_send_works := notify_send_works w;
     dialogs := d; sleeps := sleeps w;
     history := history w |}.

Definition put_sleeps (s : list outside) (w : world) : world :=
  {| log_file_content := log_file_content w; now := now w;
     notify_send_works := notify_send_works w;
     dialogs := dialogs w; sleeps := s;
     history := history w |}.

(** The file and the clock after something happened outside. *)
Definition after_outside (o : outside) (fc : file * datetime) : file * datetime :=
  (default (fst fc) (file_becomes o), default (snd fc) (clock_becomes o)).

Definition happen (o : outside) (w : world) : world :=
  let fc := after_outside o (log_file_content w, now w) in
  emit (Elsewhere o) (put_clock (snd fc) (put_file (fst fc) w)).

(** A world at program start: nothing done yet. *)
Definition boot (f : file) (t : datetime) (notify : bool)
    (ds : list (list gui_event)) (ss : list outside) : world :=
  {| log_file_content := f; now := t; notify_send_works := notify;
     dialogs := ds; sleeps := ss; history := [] |}.

(** ** The monad *)

Definition M (A : Type) : Type := world → result A * world.

Global Instance M_ret : MRet M := λ A a w, (Ok a, w).

Global Instance M_bind : MBind M := λ A B f m w,
  match m w with
  | (Ok a, w') => f a w'
  | (Raise e, w') => (Raise e, w')
  | (NoFuel, w') => (NoFuel, w')
  end.

Definition raise {A} (e : exn) : M A := λ w, (Raise e, w).

Definition lift {A} (r : result A) : M A := λ w, (r, w).

Definition perform (e : event) : M unit := λ w, (Ok tt, emit e w).

Definition print (line : string) : M unit := perform (Print line).

(** The outside moves on while the program is blocked. *)
Definition meanwhile (o : outside) : M unit := λ w, (Ok tt, happen o w).

(** The program is blocked outside the main loop of a dialog: what happens
    elsewhere in that time is the next entry of [sleeps]. *)
Definition blocked : M unit :=
  λ w, match sleeps w with
       | [] => (Ok tt, w)
       | o :: rest => meanwhile o (put_sleeps rest w)
       end.

(** [datetime.now()] *)
Definition datetime_now : M datetime := λ w, (Ok (now w), w).

(** [try: body except <caught>: handler] *)
Definition try_except {A} (body : M A) (caught : exn → bool) (handler : M A) : M A :=
  λ w, match body w with
       | (Raise e, w') => if caught e then handler w' else (Raise e, w')
       | r => r
       end.

(** ** class MedReminder *)

Record MedReminder := {
  reminder_type : string;
  medicines : option (list string);      (* unset for an unknown slot *)
  reminder_title : option string;        (* unset for an unknown slot *)
  log_file : string;
  reminder_count : nat;
  max_reminders : nat
}.

(** [__init__]: the two attributes are assigned in the [if]/[elif] only. *)
Definition MedReminder_init (reminder_type : string) : MedReminder :=
  let '(meds, title) :=
    if String.eqb reminder_type "morning" then
      (Some ["Elvanse 20mg"; "Escitalopram 5mg"; "Dexamfetamine 5mg"],
       Some "🌅 MORNING MEDICATION TIME!")
    else if String.eqb reminder_type "afternoon" then
      (Some ["Dexamfetamine 5mg (afternoon dose)"],
       Some "🌆 AFTERNOON MEDICATION TIME!")
    else (None, None) in
  {| reminder_type := reminder_type;
     medicines := meds;
     reminder_title := title;
     log_file := "~/med_log.json";
     reminder_count := 0;
     max_reminders := 10 |}.

(** [self.reminder_count += 1] *)
Definition bump (self : MedReminder) : MedReminder :=
  {| reminder_type := reminder_type self;
     medicines := medicines self;
     reminder_title := reminder_title self;
     log_file := log_file self;
     reminder_count := reminder_count self + 1;
     max_reminders := max_reminders self |}.

(** Reading an attribute that [__init__] did not assign. *)
Definition attr {A} (name : string) (field : option A) : M A :=
  match field with
  | Some v => mret v
  | None => raise (AttributeError name)
  end.

Section Methods.

Variable self : MedReminder.

Definition get_today_key : M string :=
  t ← datetime_now;
  mret (strftime_Ymd t).

(** [open(self.log_file, 'r')] and [json.load] *)
Definition open_and_load : M json :=
  λ w, match log_file_content w with
       | Missing => (Raise FileNotFoundError, w)
       | Corrupt => (Raise JSONDecodeError, emit (ReadLog Corrupt) w)
       | Stored doc => (Ok doc, emit (ReadLog (Stored doc)) w)
       end.

Definition load_log : M json :=
  try_except open_and_load
    (λ e, match e with FileNotFoundError => true | _ => false end)
    (perform (ReadLog Missing);; mret (JDict ∅)).

(** [open(self.log_file, 'w')] and [json.dump] *)
Definition dump (doc : json) : M unit :=
  λ w, (Ok tt, emit (WriteLog doc) (put_file (Stored doc) w)).

(** The dict literal that [save_log] stores. *)
Definition entry_literal (taken_meds : list string) (time_taken : string) : json :=
  JDict (<["medicines" := JList (JStr <$> taken_meds)]>
         (<["time_taken" := JStr time_taken]>
          (<["reminder_count" := JInt (Z.of_nat (reminder_count self))]> ∅))).

Definition save_log (taken_meds : list string) : M unit :=
  log ← load_log;
  today_key ← get_today_key;
  has_day ← lift (Py.contains log today_key);
  log ← (if negb has_day then lift (Py.setitem log today_key (JDict ∅)) else mret log);
  t ← datetime_now;
  let time_taken := isoformat t in
  let entry := entry_literal taken_meds time_taken in
  (* log[today_key][self.reminder_type] = entry: the day's dict is
     updated in place, so the update shows in [log] *)
  today_log ← lift (Py.getitem log today_key);
  today_log ← lift (Py.setitem today_log (reminder_type self) entry);
  log ← lift (Py.setitem log today_key today_log);
  dump log.

Definition already_taken_today : M bool :=
  log ← load_log;
  today ← get_today_key;
  has_day ← lift (Py.contains log today);
  if negb has_day then mret false else
  today_log ← lift (Py.getitem log today);
  has_slot ← lift (Py.contains today_log (reminder_type self));
  if negb has_slot then mret false else
  entry ← lift (Py.getitem today_log (reminder_type self));
  taken ← lift (Py.get entry "medicines" (JList []));
  n_taken ← lift (Py.len taken);
  meds ← attr "medicines" (medicines self);
  mret (Nat.eqb n_taken (length meds)).

(** [subprocess.run(['notify-send', ...], check=True)] *)
Definition notify_send (u : urgency) (timeout_ms message : string) : M bool :=
  λ w, (Ok (notify_send_works w),
        emit (NotifySend u timeout_ms message (notify_send_works w)) w).

Definition show_desktop_notification (u : urgency) : M unit :=
  meds ← attr "medicines" (medicines self);
  let message := "🏥 MEDICATION TIME!" +:+ Py.newline +:+ Py.newline
                 +:+ Py.join Py.newline ((λ med, "• " +:+ med) <$> meds) in
  sent ← notify_send u (match u with critical => "30000" | normal => "10000" end) message;
  if sent : bool then mret tt
  else
    print "Desktop notifications not available - showing console message";;
    print ("*** " +:+ message +:+ " ***").

(** The search for a playable sound file, paplay, aplay and the terminal
    bell are one event here.  The call returns only when the players
    have run and the half-second pauses are over: the program is blocked
    in it. *)
Definition play_alarm_sound : M unit :=
  perform AlarmSound;;
  blocked.

(** *** show_gui_reminder *)

(** [completed[0]] and whether [root] is still there. *)
Record window := { completed : bool; alive : bool }.

(** The medicines whose box is ticked, as the loop over [med_vars]
    collects them. *)
Fixpoint ticked (meds : list string) (boxes : list bool) : list string :=
  match meds, boxes with
  | med :: meds', b :: boxes' =>
      if b then med :: ticked meds' boxes' else ticked meds' boxes'
  | _, _ => []
  end.

Definition on_taken (boxes : list bool) (win : window) : M window :=
  meds ← attr "medicines" (medicines self);
  let selected := ticked meds boxes in
  if Nat.eqb (length selected) (length meds) then
    save_log selected;;
    (* messagebox.showinfo is modal: it returns when the box is dismissed,
       and the main loop does not run again after it *)
    perform (ShowInfo "Success" "Great! All medications logged. See you tomorrow!");;
    blocked;;
    mret {| completed := true; alive := false |}
  else
    (* messagebox.showwarning is modal too, but the main loop runs on
       after it: what happens elsewhere while the box is up is among the
       [Meanwhile] events that follow the click *)
    perform (ShowWarning "Incomplete"
               ("Please check all " +:+ Py.str (length meds) +:+ " medications"));;
    mret win.

(** Tk reports an exception raised by a callback and goes on with the
    main loop. *)
Definition tk_callback (handler : window → M window) (win : window) : M window :=
  λ w, match handler win w with
       | (Raise e, w') => (Ok win, emit (CallbackTraceback e) w')
       | r => r
       end.

(** [root.mainloop()] followed by [return completed[0]].  The main loop
    ends when the window is destroyed: by [on_taken], by [on_snooze] or
    by the user closing it; when nothing more reaches the loop the window
    is taken to be closed. *)
Fixpoint mainloop (events : list gui_event) (win : window) : M bool :=
  match events with
  | [] => mret (completed win)
  | ev :: rest =>
      match ev with
      | ClickTaken boxes =>
          win' ← tk_callback (on_taken boxes) win;
          if alive win' then mainloop rest win' else mret (completed win')
      | ClickSnooze => mret (completed win)
      | CloseWindow => mret (completed win)
      | MainloopTclError => raise TclError
      | Meanwhile o => meanwhile o;; mainloop rest win
      end
  end.

Definition next_dialog : M (list gui_event) :=
  λ w, match dialogs w with
       | [] => (Ok [], w)
       | d :: ds => (Ok d, put_dialogs ds w)
       end.

(** The window is taken to open ([tk.Tk()] does not fail); the [try]
    covers the main loop only. *)
Definition show_gui_reminder : M bool :=
  let bg := if 3 <? reminder_count self then "red"
            else if 1 <? reminder_count self then "orange"
            else "lightblue" in
  title ← attr "reminder_title" (reminder_title self);
  meds ← attr "medicines" (medicines self);
  perform (Dialog bg title ("Reminder #" +:+ Py.str (reminder_count self + 1)) meds);;
  events ← next_dialog;
  try_except (mainloop events {| completed := false; alive := true |})
    (λ e, match e with TclError => true | _ => false end)
    (mret false).

End Methods.

(** *** run_reminder_cycle *)

(** [time.sleep]: the program is blocked and the outside moves on. *)
Definition sleep (seconds : nat) : M unit :=
  λ w, let w := emit (Sleep seconds) w in
       match sleeps w with
       | [] => (Ok tt, w)
       | o :: rest => meanwhile o (put_sleeps rest w)
       end.

(** "Show notifications with increasing urgency" *)
Definition alert (self : MedReminder) : M unit :=
  if Nat.eqb (reminder_count self) 0 then
    show_desktop_notification self normal
  else if reminder_count self <? 3 then
    show_desktop_notification self normal;;
    play_alarm_sound
  else
    show_desktop_notification self critical;;
    play_alarm_sound.

(** "Wait between reminders", from the counter as it is after the
    increment. *)
Definition wait_time (reminder_count : nat) : nat :=
  if reminder_count <? 3 then 300
  else if reminder_count <? 6 then 180
  else 60.

(** One pass through the body of the [while].  [None]: the function
    returned; [Some self']: on to the loop test, with the counter bumped. *)
Definition loop_body (self : MedReminder) : M (option MedReminder) :=
  taken ← already_taken_today self;
  if taken : bool then
    print "Medications were taken - stopping reminders!";;
    mret None
  else
    print ("Reminder #" +:+ Py.str (reminder_count self + 1));;
    alert self;;
    confirmed ← show_gui_reminder self;
    if confirmed : bool then
      print "Medications taken successfully!";;
      mret None
    else
      let self := bump self in
      let wait_time := wait_time (reminder_count self) in
      print ("Waiting " +:+ Py.str (wait_time / 60) +:+ " minutes before next reminder...");;
      sleep wait_time;;
      mret (Some self).

Fixpoint while_loop (fuel : nat) (self : MedReminder) : M unit :=
  if reminder_count self <? max_reminders self then
    match fuel with
    | 0 => λ w, (NoFuel, w)
    | S fuel' =>
        next ← loop_body self;
        match next with
        | None => mret tt
        | Some self' => while_loop fuel' self'
        end
    end
  else
    print "Maximum reminders reached. Please take your medication!".

Definition run_reminder_cycle (self : MedReminder) : M unit :=
  taken ← already_taken_today self;
  if taken : bool then
    print "Medications already taken today!"
  else
    print "Starting medication reminder cycle...";;
    while_loop (max_reminders self - reminder_count self) self.

(** [__main__]: the slot is the first command-line argument, "morning"
    when there is none. *)
Definition main (argv : list string) : M unit :=
  let reminder_type := match argv with _ :: arg :: _ => arg | _ => "morning" end in
  run_reminder_cycle (MedReminder_init reminder_type).

(** * Vocabulary of the statements *)

(** ** The log file *)

(** What [load_log] makes of the file. *)
Definition parse (f : file) : result json :=
  match f with
  | Missing => Ok (JDict ∅)
  | Corrupt => Raise JSONDecodeError
  | Stored doc => Ok doc
  end.

(** The completion check as a function of the file and the clock: what
    [already_taken_today] answers in a world that has them. *)
Definition judge (self : MedReminder) (f : file) (t : datetime) : result bool :=
  fst (already_taken_today self (boot f t false [] [])).

(** What the check makes of an entry: the length of its ['medicines'], of
    an empty list when the field is not there, against the number of
    medicines of the slot. *)
Definition counted (self : MedReminder) (e : gmap string json) : result bool :=
  match Py.len (default (JList []) (e !! "medicines")) with
  | Ok n => match medicines self with
            | Some meds => Ok (Nat.eqb n (length meds))
            | None => Raise (AttributeError "medicines")
            end
  | Raise x => Raise x
  | NoFuel => NoFuel
  end.

(** The dict [save_log] updates for the day: the one stored under the day
    key, a new empty one when the key is not there. *)
Definition day_dict (m : gmap string json) (today : string) : option (gmap string json) :=
  match m !! today with
  | None => Some ∅
  | Some (JDict d) => Some d
  | Some _ => None
  end.

(** The document [save_log] writes at time [t] over the stored dict [m]
    whose dict for the day is [d]. *)
Definition recorded (self : MedReminder) (taken : list string) (t : datetime)
    (m d : gmap string json) : json :=
  JDict (<[strftime_Ymd t :=
            JDict (<[reminder_type self := entry_literal self taken (isoformat t)]> d)]> m).

(** The LogEntry the file holds for a (day, slot) pair. *)
Definition stored_entry (f : file) (day_key slot : string) : option json :=
  match parse f with
  | Ok (JDict m) =>
      match m !! day_key with
      | Some (JDict d) => d !! slot
      | _ => None
      end
  | _ => None
  end.

(** The day keys of the file, and the slots it has an entry for on a day. *)
Definition days (f : file) : gset string :=
  match parse f with
  | Ok (JDict m) => dom m
  | _ => ∅
  end.

Definition slots_on (f : file) (day_key : string) : gset string :=
  match parse f with
  | Ok (JDict m) =>
      match m !! day_key with
      | Some (JDict d) => dom d
      | _ => ∅
      end
  | _ => ∅
  end.

(** ** Reading a history *)

Definition is_print (e : event) : bool := match e with Print _ => true | _ => false end.

Definition is_read (e : event) : bool := match e with ReadLog _ => true | _ => false end.

Definition is_write (e : event) : bool := match e with WriteLog _ => true | _ => false end.

Definition is_sleep (e : event) : bool := match e with Sleep _ => true | _ => false end.

Definition is_elsewhere (e : event) : bool :=
  match e with Elsewhere _ => true | _ => false end.

Definition is_dialog (e : event) : bool :=
  match e with Dialog _ _ _ _ => true | _ => false end.

Definition is_dialog_talk (e : event) : bool :=
  match e with
  | ShowInfo _ _ | ShowWarning _ _ | CallbackTraceback _ => true
  | _ => false
  end.

(** The alerts: the notification, the alarm and the dialog. *)
Definition is_alert (e : event) : bool :=
  match e with
  | NotifySend _ _ _ _ | AlarmSound | Dialog _ _ _ _ => true
  | _ => false
  end.

(** What can happen while the dialog is open. *)
Definition dialog_events (e : event) : bool :=
  is_read e || is_write e || is_dialog_talk e || is_elsewhere e.

Definition any_event (e : event) : bool := true.

(** The documents the program wrote, latest first. *)
Fixpoint written (h : list event) : list json :=
  match h with
  | [] => []
  | WriteLog doc :: earlier => doc :: written earlier
  | _ :: earlier => written earlier
  end.

(** The waits of a history, latest first, and in the order they happened. *)
Fixpoint waits_rev (h : list event) : list nat :=
  match h with
  | [] => []
  | Sleep n :: earlier => n :: waits_rev earlier
  | _ :: earlier => waits_rev earlier
  end.

Definition waits (h : list event) : list nat := rev (waits_rev h).

(** The alert rounds of a history given in the order things happened: the
    urgency of each notification and whether the alarm followed it. *)
Fixpoint rounds (chronological : list event) : list (urgency * bool) :=
  match chronological with
  | [] => []
  | NotifySend u _ _ _ :: later =>
      (u, match later with AlarmSound :: _ => true | _ => false end) :: rounds later
  | _ :: later => rounds later
  end.

(** What an event does to the file and the clock. *)
Definition apply_event (e : event) (fc : file * datetime) : file * datetime :=
  match e with
  | WriteLog doc => (Stored doc, snd fc)
  | Elsewhere o => after_outside o fc
  | _ => fc
  end.

(** The file and the clock after a history (latest event first) that
    started from [init]. *)
Fixpoint replay (init : file * datetime) (h : list event) : file * datetime :=
  match h with
  | [] => init
  | e :: earlier => apply_event e (replay init earlier)
  end.

(** The log was read after the last moment at which it can have changed. *)
Fixpoint judged_fresh (h : list event) : bool :=
  match h with
  | [] => false
  | ReadLog _ :: _ => true
  | WriteLog _ :: _ => false
  | Elsewhere _ :: _ => false
  | _ :: earlier => judged_fresh earlier
  end.

(** The completion check answers False on this file at this time. *)
Definition incomplete (self : MedReminder) (fc : file * datetime) : bool :=
  match judge self (fst fc) (snd fc) with
  | Ok false => true
  | _ => false
  end.

(** The completion check answers True on this file at this time. *)
Definition complete (self : MedReminder) (fc : file * datetime) : bool :=
  match judge self (fst fc) (snd fc) with
  | Ok true => true
  | _ => false
  end.

(** What an alert has behind it: a read of the log at which the slot was
    not complete in the file, and since that read nothing that can have
    changed the file, except, when [pause] is set, what happened elsewhere
    while the alarm sounded. *)
Fixpoint checked (pause : bool) (self : MedReminder) (init : file * datetime)
    (h : list event) : bool :=
  match h with
  | [] => false
  | ReadLog _ :: earlier => incomplete self (replay init earlier)
  | WriteLog _ :: _ => false
  | Elsewhere _ :: earlier =>
      pause && match earlier with
               | AlarmSound :: _ => checked false self init earlier
               | _ => false
               end
  | _ :: earlier => checked pause self init earlier
  end.

(** Every notification and every alarm of the history follows a check that
    found the slot not complete in the file, with nothing since that can
    have changed the file; every dialog follows such a check too, with
    nothing since but the time the alarm took to sound. *)
Fixpoint guarded (self : MedReminder) (init : file * datetime) (h : list event) : bool :=
  match h with
  | [] => true
  | e :: earlier =>
      guarded self init earlier &&
      (if is_alert e then checked (is_dialog e) self init earlier else true)
  end.

(** Some alert of the history was delivered while the slot was complete in
    the file. *)
Fixpoint alerted_when_complete (self : MedReminder) (init : file * datetime)
    (h : list event) : bool :=
  match h with
  | [] => false
  | e :: earlier =>
      alerted_when_complete self init earlier ||
      (is_alert e && complete self (replay init earlier))
  end.

(** ** What a computation can do *)

(** What a property of the file, the clock and the history must stand to
    survive an event. *)
Definition tolerates (J : file * datetime → list event → Prop) (e : event) : Prop :=
  ∀ fc h, J fc h → J (apply_event e fc) (e :: h).

Definition seen (J : file * datetime → list event → Prop) (w : world) : Prop :=
  J (log_file_content w, now w) (history w).

(** [within allowed m]: the computation [m] needs no fuel, and all it does
    to the file, the clock and the history is to perform events among
    [allowed]. *)
Definition within {A} (allowed : event → bool) (m : M A) : Prop :=
  ∀ w, fst (m w) ≠ NoFuel ∧
       ∀ J, (∀ e, allowed e = true → tolerates J e) → seen J w → seen J (snd (m w)).

(** The file and the clock are what the history makes of [init], and every
    alert of the history was guarded. *)
Definition consistent (self : MedReminder) (init : file * datetime)
    (fc : file * datetime) (h : list event) : Prop :=
  replay init h = fc ∧ guarded self init h = true.

(** Moreover the log has just been read and the slot was found not
    complete: an alert may follow. *)
Definition ready (self : MedReminder) (init : file * datetime)
    (fc : file * datetime) (h : list event) : Prop :=
  consistent self init fc h ∧ judged_fresh h = true ∧ incomplete self fc = true.

(** The alert has been given and the alarm, if any, has sounded: the
    dialog may follow. *)
Definition alerted (self : MedReminder) (init : file * datetime)
    (fc : file * datetime) (h : list event) : Prop :=
  consistent self init fc h ∧ checked true self init h = true.

(** ** The dialog *)

(** A click on "Taken All" with fewer boxes ticked than there are
    medicines; any other event of the dialog passes. *)
Definition partial_click (meds : list string) (ev : gui_event) : bool :=
  match ev with
  | ClickTaken boxes => length (ticked meds boxes) <? length meds
  | _ => true
  end.

(** What the user will do in the dialog that opens next. *)
Definition next_session (w : world) : list gui_event :=
  match dialogs w with
  | [] => []
  | d :: _ => d
  end.

(** The warning of [on_taken]. *)
Definition incomplete_warning (meds : list string) : event :=
  ShowWarning "Incomplete"
    ("Please check all " +:+ Py.str (length meds) +:+ " medications").

(** ** The escalation *)

(** The wait that follows attempt [i] (0-based): [wait_time] is applied to
    the counter after its increment. *)
Definition wait_after_attempt (i : nat) : nat := wait_time (i + 1).

(** The reminder as it is at attempt [i]. *)
Definition at_attempt (self : MedReminder) (i : nat) : MedReminder :=
  {| reminder_type := reminder_type self;
     medicines := medicines self;
     reminder_title := reminder_title self;
     log_file := log_file self;
     reminder_count := i;
     max_reminders := max_reminders self |}.

(** ** Sample clocks, logs and users *)

Definition march_1st : datetime :=
  {| year := 2024; month := 3; day := 1;
     hour := 8; minute := 5; second := 9; microsecond := 0 |}.

Definition march_2nd : datetime :=
  {| year := 2024; month := 3; day := 2;
     hour := 8; minute := 0; second := 0; microsecond := 0 |}.

(** A log with an entry for the morning of March 1st whose items are not
    the morning medicines: a name twice and a number. *)
Definition odd_entry : gmap string json :=
  {[ "medicines" := JList [JStr "aspirin"; JStr "aspirin"; JInt 7] ]}.

Definition odd_day : gmap string json := {[ "morning" := JDict odd_entry ]}.

Definition odd_log : gmap string json := {[ "2024-03-01" := JDict odd_day ]}.

(** The morning log as it is once the three medicines are recorded. *)
Definition morning_done : file :=
  log_file_content
    (snd (save_log (MedReminder_init "morning")
            ["Elvanse 20mg"; "Escitalopram 5mg"; "Dexamfetamine 5mg"]
            (boot Missing march_1st true [] []))).

(** The morning user who snoozes four times and then ticks every box. *)
Definition four_snoozes : world :=
  boot Missing march_1st true
    [[ClickSnooze]; [ClickSnooze]; [ClickSnooze]; [ClickSnooze];
     [ClickTaken [true; true; true]]] [].

(** The user who snoozes every one of the ten dialogs. *)
Definition ten_snoozes : world :=
  boot Missing march_1st true (replicate 10 [ClickSnooze]) [].

(** The user snoozes the first two dialogs.  Nothing happens elsewhere
    during the first wait; while the alarm of the second attempt sounds,
    another process records the morning medicines. *)
Definition recorded_during_alarm : world :=
  boot Missing march_1st true [[ClickSnooze]; [ClickSnooze]]
    [{| file_becomes := None; clock_becomes := None |};
     {| file_becomes := Some morning_done; clock_becomes := None |}].

(** * More of the program *)

(** ** play_alarm_sound, step by step *)

(** What [play_alarm_sound] finds on the machine: which files exist and
    which programs can be run. *)
Record sound_host := {
  path_exists : string → bool;
  installed : string → bool
}.

(** What [play_alarm_sound] does that can be heard or waited for. *)
Inductive sound_action :=
| Played (player sound : string)
| HalfSecond
| Bell (times : nat).

(** "Try different alarm sounds in order of preference" *)
Definition sounds : list string :=
  ["/usr/share/sounds/freedesktop/stereo/complete.oga";
   "/usr/share/sounds/freedesktop/stereo/dialog-information.oga";
   "/usr/share/sounds/sound-icons/piano-3.wav";
   "/usr/share/sounds/sound-icons/chord-7.wav"].

(** [subprocess.run([player, sound], check=False)]: [None] stands for the
    FileNotFoundError of a program that is not installed; the exit status
    of one that ran is ignored. *)
Definition subprocess_run (host : sound_host) (player sound : string) : option sound_action :=
  if installed host player then Some (Played player sound) else None.

(** [for _ in range(n): subprocess.run(['paplay', sound]); time.sleep(0.5)]:
    what was done, and whether the loop ran to its end. *)
Fixpoint paplay_times (host : sound_host) (n : nat) (sound : string)
    : list sound_action * bool :=
  match n with
  | 0 => ([], true)
  | S k =>
      match subprocess_run host "paplay" sound with
      | Some played =>
          let '(rest, finished) := paplay_times host k sound in
          (played :: HalfSecond :: rest, finished)
      | None => ([], false)
      end
  end.

(** The [for sound in sounds] loop and the bell after it. *)
Fixpoint play_from (host : sound_host) (candidates : list string) : list sound_action :=
  match candidates with
  | [] => [Bell 5]
  | sound :: rest =>
      if path_exists host sound then
        match paplay_times host 3 sound with
        | (done, true) => done
        | (done, false) =>
            match subprocess_run host "aplay" sound with
            | Some played => done ++ [played]
            | None => done ++ play_from host rest
            end
        end
      else play_from host rest
  end.

Definition play_alarm_sound_on (host : sound_host) : list sound_action :=
  play_from host sounds.

(** A machine with the third and the fourth sound file and with aplay
    only. *)
Definition aplay_only_host : sound_host :=
  {| path_exists := λ p, String.eqb p "/usr/share/sounds/sound-icons/piano-3.wav"
                         || String.eqb p "/usr/share/sounds/sound-icons/chord-7.wav";
     installed := λ p, String.eqb p "aplay" |}.

(** ** Reading a day key back *)

Fixpoint string_take (n : nat) (s : string) : string :=
  match n, s with
  | S k, String c rest => String c (string_take k rest)
  | _, _ => ""
  end.

Fixpoint string_drop (n : nat) (s : string) : string :=
  match n, s with
  | S k, String _ rest => string_drop k rest
  | _, _ => s
  end.

(** The number a string of digits stands for. *)
Definition digits_value (s : string) : option nat :=
  option_map Nat.of_uint (NilEmpty.uint_of_string s).

(** Year, month and day of a key of the form YYYY-MM-DD. *)
Definition read_day_key (key : string) : option (nat * nat * nat) :=
  match digits_value (string_take 4 key),
        digits_value (string_take 2 (string_drop 5 key)),
        digits_value (string_take 2 (string_drop 8 key)) with
  | Some y, Some m, Some d => Some (y, m, d)
  | _, _, _ => None
  end.

(** A date as [datetime.now()] gives it, in the years [strftime] writes
    with four digits. *)
Definition calendar_date (t : datetime) : Prop :=
  10 * 100 ≤ year t < 100 * 100 ∧ 1 ≤ month t ≤ 12 ∧ 1 ≤ day t ≤ 31.

(** ** Samples for the dialog *)

(** A world whose log has a list where the dict of March 1st should be,
    and a user who ticks the three boxes and then closes the window. *)
Definition list_for_today : world :=
  boot (Stored (JDict {[ "2024-03-01" := JList [] ]})) march_1st true
    [[ClickTaken [true; true; true]; CloseWindow]] [].

(** A user who ticks two boxes, is warned, ticks all three and confirms. *)
Definition second_try : world :=
  boot Missing march_1st true
    [[ClickTaken [true; true; false]; ClickTaken [true; true; true]]] [].

(** ** The record of a confirmation *)

(** The world right after the dialog has recorded [doc] at time [t]: the
    file and the clock are as the record left them, or the last thing in
    the history is what happened elsewhere while the "Success" box was up,
    and they are as that has made them. *)
Definition after_record (doc : json) (t : datetime) (w' : world) : Prop :=
  (log_file_content w', now w') = (Stored doc, t) ∨
  ∃ o, head (history w') = Some (Elsewhere o) ∧
       (log_file_content w', now w') = after_outside o (Stored doc, t).

(** ** Measures of a run *)

Definition is_notify (e : event) : bool :=
  match e with NotifySend _ _ _ _ => true | _ => false end.

Definition is_alarm (e : event) : bool :=
  match e with AlarmSound => true | _ => false end.

(** What [alert] does: the notification, the alarm, the console lines;
    and what happens elsewhere while the alarm sounds. *)
Definition alert_events (e : event) : bool :=
  is_notify e || is_alarm e || is_print e || is_elsewhere e.

(** The number of dialogs a history has opened. *)
Fixpoint dialogs_shown (h : list event) : nat :=
  match h with
  | [] => 0
  | Dialog _ _ _ _ :: earlier => S (dialogs_shown earlier)
  | _ :: earlier => dialogs_shown earlier
  end.

(** The seconds a history has waited between reminders
    ([time.sleep(wait_time)]; the pauses inside the alarm are not waits). *)
Definition time_waited (h : list event) : nat := sum_list (waits_rev h).

(** The waits still to come when every round from counter [count] up to
    the cap [cap] ends unconfirmed. *)
Definition remaining_wait (count cap : nat) : nat :=
  sum_list (wait_after_attempt <$> seq count (cap - count)).

(** How a history ends when the cycle has just recorded the slot: one more
    document is written, on which the completion check answers True at the
    time [t] of the write, and the last thing done is the closing message. *)
Definition just_recorded (self : MedReminder) (before : list json) (w' : world) : Prop :=
  ∃ doc t, written (history w') = doc :: before ∧
           judge self (Stored doc) t = Ok true ∧
           head (history w') = Some (Print "Medications taken successfully!").

(** The colour of the dialog a history opened last, and the urgency of the
    notification it sent last. *)
Fixpoint last_dialog_colour (h : list event) : option string :=
  match h with
  | [] => None
  | Dialog bg _ _ _ :: _ => Some bg
  | _ :: earlier => last_dialog_colour earlier
  end.

Fixpoint last_urgency (h : list event) : option urgency :=
  match h with
  | [] => None
  | NotifySend u _ _ _ :: _ => Some u
  | _ :: earlier => last_urgency earlier
  end.

(** * Proofs *)

(** * Running the monad *)

Lemma bind_run {A B} (m : M A) (k : A → M B) w :
  (m ≫= k) w = match m w with
               | (Ok a, w') => k a w'
               | (Raise e, w') => (Raise e, w')
               | (NoFuel, w') => (NoFuel, w')
               end.
Proof. reflexivity. Qed.

Ltac run :=
  unfold mbind, M_bind, mret, M_ret, lift, raise, perform, print,
    get_today_key, datetime_now, dump; simpl.

(** * The daily log store *)

Lemma load_log_run w :
  load_log w = (parse (log_file_content w), emit (ReadLog (log_file_content w)) w).
Proof.
  unfold load_log, try_except, open_and_load.
  destruct (log_file_content w); reflexivity.
Qed.

Lemma save_log_ok self taken w m d :
  parse (log_file_content w) = Ok (JDict m) →
  day_dict m (strftime_Ymd (now w)) = Some d →
  save_log self taken w =
    (Ok tt, emit (WriteLog (recorded self taken (now w) m d))
              (put_file (Stored (recorded self taken (now w) m d))
                 (emit (ReadLog (log_file_content w)) w))).
Proof.
  intros Hp Hd. unfold save_log.
  rewrite bind_run, load_log_run, Hp. run.
  unfold day_dict in Hd.
  destruct (m !! strftime_Ymd (now w)) as [v|] eqn:E.
  - destruct v; try discriminate. injection Hd as ->. simpl.
    rewrite E. reflexivity.
  - injection Hd as <-. simpl. rewrite lookup_insert_eq. simpl.
    unfold recorded. rewrite insert_insert_eq. reflexivity.
Qed.

Lemma save_log_inv self taken w :
  fst (save_log self taken w) = Ok tt →
  ∃ m d, parse (log_file_content w) = Ok (JDict m) ∧
         day_dict m (strftime_Ymd (now w)) = Some d.
Proof.
  unfold save_log. rewrite bind_run, load_log_run.
  destruct (parse (log_file_content w)) as [log| |] eqn:Hp; try discriminate.
  run.
  destruct log as [ | | | |s|l|m]; simpl; try discriminate.
  - destruct (Py.is_substring _ _); simpl; discriminate.
  - destruct (existsb _ l); simpl; discriminate.
  - intros H. exists m. unfold day_dict.
    destruct (m !! strftime_Ymd (now w)) as [v|] eqn:E; [|eauto].
    simpl in H. rewrite E in H. destruct v; simpl in H; try discriminate. eauto.
Qed.

(** A failed [save_log] has not touched the file. *)
Lemma save_log_fail self taken w :
  fst (save_log self taken w) ≠ Ok tt →
  log_file_content (snd (save_log self taken w)) = log_file_content w ∧
  written (history (snd (save_log self taken w))) = written (history w).
Proof.
  unfold save_log. rewrite bind_run, load_log_run.
  destruct (parse (log_file_content w)) as [log| |] eqn:Hp; try (split; reflexivity).
  run.
  destruct log as [ | | | |s|l|m]; simpl; try (split; reflexivity).
  - destruct (Py.is_substring _ _); split; reflexivity.
  - destruct (existsb _ l); simpl; split; reflexivity.
  - destruct (m !! strftime_Ymd (now w)) as [v|] eqn:E; simpl.
    + rewrite E. destruct v; simpl; try (split; reflexivity).
      intros H; exfalso; apply H. reflexivity.
    + rewrite lookup_insert_eq. simpl. intros H; exfalso; apply H; reflexivity.
Qed.

(** * The completion check *)

Lemma already_taken_today_run self w :
  already_taken_today self w =
  (judge self (log_file_content w) (now w), emit (ReadLog (log_file_content w)) w).
Proof.
  unfold judge, already_taken_today.
  rewrite !bind_run, !load_log_run. simpl.
  destruct (parse (log_file_content w)) as [log| |]; try reflexivity.
  run.
  destruct (Py.contains log _) as [[|]| |]; try reflexivity. simpl.
  destruct (Py.getitem log _) as [today_log| |]; try reflexivity.
  destruct (Py.contains today_log _) as [[|]| |]; try reflexivity. simpl.
  destruct (Py.getitem today_log _) as [entry| |]; try reflexivity.
  destruct (Py.get entry _ _) as [taken| |]; try reflexivity.
  destruct (Py.len taken) as [n| |]; try reflexivity.
  unfold attr. destruct (medicines self); reflexivity.
Qed.

Lemma judge_dict self f t m :
  parse f = Ok (JDict m) →
  judge self f t =
    match m !! strftime_Ymd t with
    | None => Ok false
    | Some (JDict d) =>
        match d !! reminder_type self with
        | None => Ok false
        | Some (JDict e) => counted self e
        | Some _ => Raise (AttributeError "get")
        end
    | Some (JList l) =>
        if existsb (λ x, match x with JStr s => String.eqb s (reminder_type self) | _ => false end) l
        then Raise TypeError else Ok false
    | Some (JStr s) =>
        if Py.is_substring (reminder_type self) s then Raise TypeError else Ok false
    | Some _ => Raise TypeError
    end.
Proof.
  intros Hp. unfold judge, already_taken_today.
  rewrite bind_run, load_log_run. simpl. rewrite Hp. run.
  destruct (m !! strftime_Ymd t) as [v|] eqn:E; [|reflexivity]. simpl.
  destruct v as [ | | | |s|l|d]; simpl; try reflexivity.
  - destruct (Py.is_substring _ _); reflexivity.
  - destruct (existsb _ l); reflexivity.
  - destruct (d !! reminder_type self) as [v|] eqn:E2; [|reflexivity]. simpl.
    destruct v as [ | | | |s'|l'|e]; simpl; try reflexivity.
    unfold counted, default.
    destruct (e !! "medicines") as [v|]; simpl.
    + destruct (Py.len v); try reflexivity. unfold attr. destruct (medicines self); reflexivity.
    + unfold attr. destruct (medicines self); reflexivity.
Qed.

Lemma judge_after_save self meds taken t m d :
  medicines self = Some meds →
  judge self (Stored (recorded self taken t m d)) t
  = Ok (Nat.eqb (length taken) (length meds)).
Proof.
  intros Hm. unfold recorded. rewrite (judge_dict _ (Stored (JDict _)) _ _ eq_refl).
  rewrite lookup_insert_eq, lookup_insert_eq.
  unfold counted, entry_literal. rewrite lookup_insert_eq. simpl.
  rewrite Hm, length_fmap. reflexivity.
Qed.

Lemma judge_other_day self taken t t' f m d :
  parse f = Ok (JDict m) →
  strftime_Ymd t' ≠ strftime_Ymd t →
  judge self (Stored (recorded self taken t m d)) t' = judge self f t'.
Proof.
  intros Hp Hne. unfold recorded.
  rewrite (judge_dict _ (Stored (JDict _)) _ _ eq_refl), (judge_dict _ _ _ _ Hp).
  rewrite lookup_insert_ne by congruence. reflexivity.
Qed.

(** C2 (as amended).  [load_log] answers a missing log file with the empty
    mapping.  A log file that does not parse is not treated that way:
    [json.load]'s error is not caught, so the completion check and the
    whole reminder cycle end with it, after the read and before any alert. *)
Theorem load_log_missing_or_corrupt (w : world) :
  fst (load_log (put_file Missing w)) = Ok (JDict ∅) ∧
  fst (load_log (put_file Corrupt w)) = Raise JSONDecodeError ∧
  ∀ self,
    fst (already_taken_today self (put_file Corrupt w)) = Raise JSONDecodeError ∧
    fst (run_reminder_cycle self (put_file Corrupt w)) = Raise JSONDecodeError ∧
    history (snd (run_reminder_cycle self (put_file Corrupt w)))
    = ReadLog Corrupt :: history w.
Proof.
  split; [reflexivity|]. split; [reflexivity|].
  intros self. unfold run_reminder_cycle.
  rewrite bind_run, already_taken_today_run.
  repeat split.
Qed.

(** C2, the claim as stated fails: on a log file that does not parse
    [load_log] raises, where on a missing one it returns the empty mapping. *)
Lemma load_log_corrupt_raises :
  fst (load_log (boot Corrupt march_1st true [] [])) = Raise JSONDecodeError ∧
  fst (load_log (boot Missing march_1st true [] [])) = Ok (JDict ∅) ∧
  fst (load_log (boot Corrupt march_1st true [] []))
  ≠ fst (load_log (boot Missing march_1st true [] [])).
Proof. repeat split; try reflexivity. discriminate. Qed.

(** C3.  After [save_log] stored a list of confirmed items for today's
    slot, [already_taken_today] answers true exactly when that list is as
    long as the slot's medicine list; the answer for any other day is what
    it was before.  With no entry for the day or for the slot, or with an
    entry whose item count differs from the required one, the answer is
    false. *)
Theorem record_then_already_taken (self : MedReminder) (meds taken : list string) (w : world) :
  medicines self = Some meds →
  fst (save_log self taken w) = Ok tt →
  let w' := snd (save_log self taken w) in
  fst (already_taken_today self w') = Ok (Nat.eqb (length taken) (length meds)) ∧
  (length taken = length meds → fst (already_taken_today self w') = Ok true) ∧
  (∀ t', strftime_Ymd t' ≠ strftime_Ymd (now w) →
         judge self (log_file_content w') t' = judge self (log_file_content w) t') ∧
  (∀ v m, parse (log_file_content v) = Ok (JDict m) →
          m !! strftime_Ymd (now v) = None →
          fst (already_taken_today self v) = Ok false) ∧
  (∀ v m d, parse (log_file_content v) = Ok (JDict m) →
            m !! strftime_Ymd (now v) = Some (JDict d) →
            d !! reminder_type self = None →
            fst (already_taken_today self v) = Ok false) ∧
  (∀ v m d e l, parse (log_file_content v) = Ok (JDict m) →
                m !! strftime_Ymd (now v) = Some (JDict d) →
                d !! reminder_type self = Some (JDict e) →
                e !! "medicines" = Some (JList l) →
                length l ≠ length meds →
                fst (already_taken_today self v) = Ok false).
Proof.
  intros Hmeds Hok w'.
  destruct (save_log_inv _ _ _ Hok) as (m & d & Hp & Hd).
  assert (Hw' : log_file_content w' = Stored (recorded self taken (now w) m d) ∧
                now w' = now w).
  { subst w'. rewrite (save_log_ok _ _ _ _ _ Hp Hd). split; reflexivity. }
  destruct Hw' as [Hf Hn].
  assert (Hsame : fst (already_taken_today self w')
                  = Ok (Nat.eqb (length taken) (length meds))).
  { rewrite already_taken_today_run. simpl. rewrite Hf, Hn.
    apply judge_after_save, Hmeds. }
  split; [exact Hsame|].
  split; [intros Hlen; rewrite Hsame, Hlen, Nat.eqb_refl; reflexivity|].
  split; [intros t' Hne; rewrite Hf; apply (judge_other_day _ _ _ _ _ _ _ Hp Hne)|].
  split; [|split].
  - intros v m' Hp' E. rewrite already_taken_today_run. simpl.
    rewrite (judge_dict _ _ _ _ Hp'), E. reflexivity.
  - intros v m' d' Hp' E E2. rewrite already_taken_today_run. simpl.
    rewrite (judge_dict _ _ _ _ Hp'), E, E2. reflexivity.
  - intros v m' d' e l Hp' E E2 E3 Hlen. rewrite already_taken_today_run. simpl.
    rewrite (judge_dict _ _ _ _ Hp'), E, E2. unfold counted. rewrite E3. simpl.
    rewrite Hmeds. f_equal. apply Nat.eqb_neq, Hlen.
Qed.

Lemma stored_entry_recorded self taken t m d day_key slot :
  stored_entry (Stored (recorded self taken t m d)) day_key slot =
  if decide (day_key = strftime_Ymd t) then
    if decide (slot = reminder_type self)
    then Some (entry_literal self taken (isoformat t))
    else d !! slot
  else match m !! day_key with Some (JDict d') => d' !! slot | _ => None end.
Proof.
  unfold stored_entry, recorded. simpl.
  destruct (decide (day_key = strftime_Ymd t)) as [->|Hne].
  - rewrite lookup_insert_eq.
    destruct (decide (slot = reminder_type self)) as [->|Hne'].
    + apply lookup_insert_eq.
    + apply lookup_insert_ne. congruence.
  - rewrite lookup_insert_ne by congruence. reflexivity.
Qed.

Lemma stored_entry_day_dict f m d day_key slot :
  parse f = Ok (JDict m) →
  day_dict m day_key = Some d →
  stored_entry f day_key slot = d !! slot.
Proof.
  unfold stored_entry, day_dict. intros -> Hd.
  destruct (m !! day_key) as [v|]; [destruct v; try discriminate|];
    injection Hd as <-; reflexivity.
Qed.

(** C6.  A [save_log] that succeeds stores its entry under (today, slot) and
    leaves the entry of every other (day, slot) pair as it was.  A second
    [save_log] for the same day and slot succeeds too, replaces that entry,
    adds no day and no slot, and leaves the file as a single call on the
    original file would have. *)
Theorem save_log_overwrites (self : MedReminder) (taken : list string) (w : world) :
  fst (save_log self taken w) = Ok tt →
  let w1 := snd (save_log self taken w) in
  let today := strftime_Ymd (now w) in
  stored_entry (log_file_content w1) today (reminder_type self)
  = Some (entry_literal self taken (isoformat (now w))) ∧
  (∀ day_key slot, (day_key, slot) ≠ (today, reminder_type self) →
     stored_entry (log_file_content w1) day_key slot
     = stored_entry (log_file_content w) day_key slot) ∧
  (∀ self2 taken2 w2,
     reminder_type self2 = reminder_type self →
     log_file_content w2 = log_file_content w1 →
     strftime_Ymd (now w2) = today →
     let w3 := snd (save_log self2 taken2 w2) in
     fst (save_log self2 taken2 w2) = Ok tt ∧
     stored_entry (log_file_content w3) today (reminder_type self)
     = Some (entry_literal self2 taken2 (isoformat (now w2))) ∧
     days (log_file_content w3) = days (log_file_content w1) ∧
     slots_on (log_file_content w3) today = slots_on (log_file_content w1) today ∧
     (∀ day_key slot, (day_key, slot) ≠ (today, reminder_type self) →
        stored_entry (log_file_content w3) day_key slot
        = stored_entry (log_file_content w) day_key slot) ∧
     log_file_content w3
     = log_file_content (snd (save_log self2 taken2 (put_clock (now w2) w)))).
Proof.
  intros Hok w1 today.
  destruct (save_log_inv _ _ _ Hok) as (m & d & Hp & Hd).
  assert (Hf : log_file_content w1 = Stored (recorded self taken (now w) m d)).
  { subst w1. rewrite (save_log_ok _ _ _ _ _ Hp Hd). reflexivity. }
  assert (Hframe : ∀ day_key slot, (day_key, slot) ≠ (today, reminder_type self) →
     stored_entry (Stored (recorded self taken (now w) m d)) day_key slot
     = stored_entry (log_file_content w) day_key slot).
  { intros day_key slot Hne. rewrite stored_entry_recorded.
    destruct (decide (day_key = strftime_Ymd (now w))) as [->|Hday].
    - rewrite (stored_entry_day_dict _ _ _ _ _ Hp Hd).
      destruct (decide (slot = reminder_type self)) as [->|]; [|reflexivity].
      exfalso. apply Hne. reflexivity.
    - unfold stored_entry. rewrite Hp. reflexivity. }
  split; [|split].
  - rewrite Hf, stored_entry_recorded. subst today.
    rewrite !decide_True by reflexivity. reflexivity.
  - intros day_key slot Hne. rewrite Hf. apply Hframe, Hne.
  - intros self2 taken2 w2 Hty Hf2 Hday w3.
    set (d1 := <[reminder_type self := entry_literal self taken (isoformat (now w))]> d).
    set (m1 := <[today := JDict d1]> m).
    assert (Hp2 : parse (log_file_content w2) = Ok (JDict m1)).
    { rewrite Hf2, Hf. reflexivity. }
    assert (Hd2 : day_dict m1 (strftime_Ymd (now w2)) = Some d1).
    { rewrite Hday. unfold day_dict, m1. rewrite lookup_insert_eq. reflexivity. }
    assert (Hf3 : log_file_content w3 = Stored (recorded self2 taken2 (now w2) m1 d1)).
    { subst w3. rewrite (save_log_ok _ _ _ _ _ Hp2 Hd2). reflexivity. }
    assert (Hcollapse : recorded self2 taken2 (now w2) m1 d1
                        = recorded self2 taken2 (now w2) m d).
    { unfold recorded, m1, d1. rewrite Hday, Hty.
      rewrite !insert_insert_eq. reflexivity. }
    split; [rewrite (save_log_ok _ _ _ _ _ Hp2 Hd2); reflexivity|].
    split; [|split; [|split; [|split]]].
    + rewrite Hf3, stored_entry_recorded, Hday, Hty.
      rewrite !decide_True by reflexivity. reflexivity.
    + rewrite Hf3, Hcollapse, Hf. unfold days, recorded. simpl. rewrite Hday.
      rewrite !dom_insert_L. reflexivity.
    + rewrite Hf3, Hcollapse, Hf. unfold slots_on, recorded. simpl. rewrite Hday.
      fold today. rewrite !lookup_insert_eq, Hty, !dom_insert_L. reflexivity.
    + intros day_key slot Hne. rewrite Hf3, Hcollapse.
      rewrite <- (Hframe day_key slot Hne).
      rewrite !stored_entry_recorded, Hday, Hty. fold today.
      destruct (decide (day_key = today)) as [->|]; [|reflexivity].
      destruct (decide (slot = reminder_type self)) as [->|]; [|reflexivity].
      exfalso. apply Hne. reflexivity.
    + rewrite Hf3, Hcollapse.
      assert (Hd' : day_dict m (strftime_Ymd (now (put_clock (now w2) w))) = Some d).
      { simpl. rewrite Hday. exact Hd. }
      rewrite (save_log_ok self2 taken2 (put_clock (now w2) w) m d Hp Hd').
      reflexivity.
Qed.

(** C10.  For a stored entry, only the length of its ['medicines'] list
    counts: the check answers true when it equals the number of medicines
    of the slot, whatever the list holds, and an entry without the field
    counts as an empty list. *)
Theorem completion_counts_length_only (self : MedReminder) (meds : list string)
    (w : world) (m d e : gmap string json) :
  medicines self = Some meds →
  parse (log_file_content w) = Ok (JDict m) →
  m !! strftime_Ymd (now w) = Some (JDict d) →
  d !! reminder_type self = Some (JDict e) →
  (∀ l, e !! "medicines" = Some (JList l) →
        fst (already_taken_today self w) = Ok (Nat.eqb (length l) (length meds))) ∧
  (∀ l, e !! "medicines" = Some (JList l) → length l = length meds →
        fst (already_taken_today self w) = Ok true) ∧
  (e !! "medicines" = None →
        fst (already_taken_today self w) = Ok (Nat.eqb 0 (length meds))) ∧
  (e !! "medicines" = None → meds ≠ [] →
        fst (already_taken_today self w) = Ok false).
Proof.
  intros Hmeds Hp Hday Hslot.
  assert (Hrun : fst (already_taken_today self w) = counted self e).
  { rewrite already_taken_today_run. simpl.
    rewrite (judge_dict _ _ _ _ Hp), Hday, Hslot. reflexivity. }
  rewrite Hrun. unfold counted. rewrite Hmeds.
  split; [|split; [|split]].
  - intros l ->. reflexivity.
  - intros l -> Hlen. simpl. rewrite Hlen, Nat.eqb_refl. reflexivity.
  - intros ->. reflexivity.
  - intros -> Hne. simpl. destruct meds; [congruence|reflexivity].
Qed.

Lemma record_then_already_taken_morning :
  let self := MedReminder_init "morning" in
  let w := boot Missing march_1st true [] [] in
  let taken := ["Elvanse 20mg"; "Escitalopram 5mg"; "Dexamfetamine 5mg"] in
  medicines self = Some taken ∧
  fst (save_log self taken w) = Ok tt ∧
  fst (already_taken_today self (snd (save_log self taken w))) = Ok true ∧
  judge self (log_file_content (snd (save_log self taken w))) march_2nd = Ok false.
Proof.
  intros self w taken.
  assert (Hm : medicines self = Some taken) by reflexivity.
  assert (Hs : fst (save_log self taken w) = Ok tt) by (vm_compute; reflexivity).
  destruct (record_then_already_taken self taken taken w Hm Hs)
    as (_ & Hsame & Hother & _).
  split; [exact Hm|]. split; [exact Hs|]. split.
  - apply Hsame. reflexivity.
  - rewrite Hother.
    + vm_compute. reflexivity.
    + vm_compute. discriminate.
Defined.

Lemma save_log_overwrites_morning :
  let self := MedReminder_init "morning" in
  let w := boot Missing march_1st true [] [] in
  let w1 := snd (save_log self ["Elvanse 20mg"] w) in
  fst (save_log self ["Elvanse 20mg"] w) = Ok tt ∧
  fst (save_log self ["Escitalopram 5mg"] w1) = Ok tt ∧
  slots_on (log_file_content (snd (save_log self ["Escitalopram 5mg"] w1))) "2024-03-01"
  = slots_on (log_file_content w1) "2024-03-01" ∧
  log_file_content (snd (save_log self ["Escitalopram 5mg"] w1))
  = log_file_content (snd (save_log self ["Escitalopram 5mg"] w)).
Proof.
  intros self w w1.
  assert (Hs : fst (save_log self ["Elvanse 20mg"] w) = Ok tt) by (vm_compute; reflexivity).
  destruct (save_log_overwrites self ["Elvanse 20mg"] w Hs) as (_ & _ & Htwice).
  destruct (Htwice self ["Escitalopram 5mg"] w1 eq_refl eq_refl eq_refl)
    as (Hok & _ & _ & Hslots & _ & Hsingle).
  split; [exact Hs|]. split; [exact Hok|]. split; [exact Hslots|exact Hsingle].
Defined.

Lemma completion_counts_length_only_odd :
  let self := MedReminder_init "morning" in
  let w := boot (Stored (JDict odd_log)) march_1st true [] [] in
  fst (already_taken_today self w) = Ok true.
Proof.
  intros self w.
  destruct (completion_counts_length_only self
              ["Elvanse 20mg"; "Escitalopram 5mg"; "Dexamfetamine 5mg"]
              w odd_log odd_day odd_entry eq_refl eq_refl eq_refl eq_refl)
    as (_ & Hany & _).
  apply (Hany [JStr "aspirin"; JStr "aspirin"; JInt 7]); reflexivity.
Defined.

(** * What each computation can do *)

Section Within.

Context {A B : Type}.
Implicit Types allowed : event → bool.

Lemma within_ret allowed (a : A) : within allowed (mret a).
Proof. intros w. split; [discriminate|]. intros J _ H. exact H. Qed.

Lemma within_raise allowed (e : exn) : within allowed (raise e : M A).
Proof. intros w. split; [discriminate|]. intros J _ H. exact H. Qed.

Lemma within_lift allowed (r : result A) : r ≠ NoFuel → within allowed (lift r).
Proof. intros Hr w. split; [exact Hr|]. intros J _ H. exact H. Qed.

Lemma within_bind allowed (m : M A) (k : A → M B) :
  within allowed m → (∀ a, within allowed (k a)) → within allowed (m ≫= k).
Proof.
  intros Hm Hk w. rewrite bind_run.
  destruct (Hm w) as [Hfuel HJ]. destruct (m w) as [[a| |] w'] eqn:E; simpl in *.
  - destruct (Hk a w') as [Hfuel' HJ']. split; [exact Hfuel'|].
    intros J Htol H. apply HJ'; [exact Htol|]. apply HJ; assumption.
  - split; [discriminate|]. intros J Htol H. apply HJ; assumption.
  - congruence.
Qed.

Lemma within_try_except allowed (body handler : M A) (caught : exn → bool) :
  within allowed body → within allowed handler →
  within allowed (try_except body caught handler).
Proof.
  intros Hb Hh w. unfold try_except.
  destruct (Hb w) as [Hfuel HJ]. destruct (body w) as [[a| |] w'] eqn:E; simpl in *.
  - split; [discriminate|]. exact HJ.
  - destruct (caught e).
    + destruct (Hh w') as [Hfuel' HJ']. split; [exact Hfuel'|].
      intros J Htol H. apply HJ'; [exact Htol|]. apply HJ; assumption.
    + split; [discriminate|]. exact HJ.
  - congruence.
Qed.

Lemma within_weaken allowed allowed' (m : M A) :
  (∀ e, allowed e = true → allowed' e = true) →
  within allowed m → within allowed' m.
Proof.
  intros Hsub Hm w. destruct (Hm w) as [Hfuel HJ]. split; [exact Hfuel|].
  intros J Htol. apply HJ. intros e He. apply Htol, Hsub, He.
Qed.

Lemma within_if allowed (b : bool) (m1 m2 : M A) :
  within allowed m1 → within allowed m2 → within allowed (if b then m1 else m2).
Proof. destruct b; auto. Qed.

End Within.

(** [perform] only adds to the history, so it stands for the events that
    leave the file and the clock alone. *)
Lemma within_perform allowed (e : event) :
  is_write e || is_elsewhere e = false →
  allowed e = true → within allowed (perform e).
Proof.
  intros Hplain He w. split; [discriminate|]. intros J Htol H.
  specialize (Htol e He _ _ H). destruct e; try discriminate; exact Htol.
Qed.

Lemma within_print allowed line :
  allowed (Print line) = true → within allowed (print line).
Proof. apply within_perform. reflexivity. Qed.

Lemma within_datetime_now allowed : within allowed datetime_now.
Proof. intros w. split; [discriminate|]. intros J _ H. exact H. Qed.

Lemma within_next_dialog allowed : within allowed next_dialog.
Proof.
  intros w. unfold next_dialog. destruct (dialogs w); (split; [discriminate|]);
    intros J _ H; exact H.
Qed.

Lemma within_dump allowed doc :
  allowed (WriteLog doc) = true → within allowed (dump doc).
Proof.
  intros He w. split; [discriminate|]. intros J Htol H.
  exact (Htol _ He _ _ H).
Qed.

Lemma within_meanwhile allowed o :
  allowed (Elsewhere o) = true → within allowed (meanwhile o).
Proof.
  intros He w. split; [discriminate|]. intros J Htol H.
  exact (Htol _ He _ _ H).
Qed.

Lemma within_blocked allowed :
  (∀ o, allowed (Elsewhere o) = true) → within allowed blocked.
Proof.
  intros He w. unfold blocked. destruct (sleeps w) as [|o rest].
  - split; [discriminate|]. intros J _ H. exact H.
  - split; [discriminate|]. intros J Htol H. exact (Htol _ (He o) _ _ H).
Qed.

Lemma within_sleep allowed n :
  allowed (Sleep n) = true → (∀ o, allowed (Elsewhere o) = true) →
  within allowed (sleep n).
Proof.
  intros Hs He w. unfold sleep. simpl. destruct (sleeps w) as [|o rest].
  - split; [discriminate|]. intros J Htol H. exact (Htol _ Hs _ _ H).
  - split; [discriminate|]. intros J Htol H.
    exact (Htol _ (He o) _ _ (Htol _ Hs _ _ H)).
Qed.

Lemma within_notify_send allowed u timeout message :
  (∀ ok, allowed (NotifySend u timeout message ok) = true) →
  within allowed (notify_send u timeout message).
Proof.
  intros He w. split; [discriminate|]. intros J Htol H.
  exact (Htol _ (He _) _ _ H).
Qed.

Lemma within_attr {A} allowed name (field : option A) : within allowed (attr name field).
Proof. destruct field; [apply within_ret|apply within_raise]. Qed.

Create HintDb within discriminated.

#[local] Hint Resolve within_ret within_raise within_attr within_datetime_now
  within_next_dialog : within.
#[local] Hint Extern 1 (within _ (mbind _ _)) => apply within_bind; [|intros] : within.
#[local] Hint Extern 1 (within _ (perform _)) =>
  apply within_perform; reflexivity : within.
#[local] Hint Extern 1 (within _ (print _)) => apply within_print; reflexivity : within.
#[local] Hint Extern 1 (within _ (dump _)) => apply within_dump; reflexivity : within.
#[local] Hint Extern 1 (within _ (meanwhile _)) => apply within_meanwhile; reflexivity : within.
#[local] Hint Extern 1 (within _ blocked) =>
  apply within_blocked; intros; reflexivity : within.
#[local] Hint Extern 1 (within _ (sleep _)) =>
  apply within_sleep; [reflexivity|intros; reflexivity] : within.
#[local] Hint Extern 1 (within _ (notify_send _ _ _)) =>
  apply within_notify_send; intros; reflexivity : within.
#[local] Hint Extern 1 (within _ (if _ then _ else _)) => apply within_if : within.
#[local] Hint Extern 1 (within _ (try_except _ _ _)) => apply within_try_except : within.

Lemma py_contains_fuel c k : Py.contains c k ≠ NoFuel.
Proof. destruct c; discriminate. Qed.

Lemma py_getitem_fuel c k : Py.getitem c k ≠ NoFuel.
Proof. destruct c; try discriminate. simpl. destruct (_ !! _); discriminate. Qed.

Lemma py_setitem_fuel c k v : Py.setitem c k v ≠ NoFuel.
Proof. destruct c; discriminate. Qed.

Lemma py_get_fuel c k v : Py.get c k v ≠ NoFuel.
Proof. destruct c; discriminate. Qed.

Lemma py_len_fuel c : Py.len c ≠ NoFuel.
Proof. destruct c; discriminate. Qed.

#[local] Hint Extern 1 (within _ (lift _)) =>
  apply within_lift;
  first [apply py_contains_fuel | apply py_getitem_fuel | apply py_setitem_fuel
        | apply py_get_fuel | apply py_len_fuel] : within.

Lemma within_load_log allowed :
  (∀ f, allowed (ReadLog f) = true) → within allowed load_log.
Proof.
  intros He w. rewrite load_log_run. split.
  - destruct (log_file_content w); discriminate.
  - intros J Htol H. exact (Htol _ (He _) _ _ H).
Qed.

Lemma within_already_taken_today self : within is_read (already_taken_today self).
Proof.
  intros w. rewrite already_taken_today_run. split.
  - unfold judge. generalize (boot (log_file_content w) (now w) false [] []). intros v.
    assert (H : within is_read (already_taken_today self)).
    { unfold already_taken_today, get_today_key.
      apply within_bind; [apply within_load_log; reflexivity|intros].
      auto 20 with within. }
    apply H.
  - intros J Htol H. exact (Htol (ReadLog _) eq_refl _ _ H).
Qed.

Lemma within_save_log self taken :
  within (λ e, is_read e || is_write e) (save_log self taken).
Proof.
  unfold save_log, get_today_key.
  apply within_bind; [apply within_load_log; reflexivity|intros].
  auto 30 with within.
Qed.

Lemma within_show_desktop_notification self u :
  within (λ e, is_alert e || is_print e) (show_desktop_notification self u).
Proof. unfold show_desktop_notification. auto 20 with within. Qed.

Lemma within_alert self :
  within (λ e, is_alert e || is_print e || is_elsewhere e) (alert self).
Proof.
  unfold alert, play_alarm_sound.
  assert (Hshow : ∀ u, within (λ e, is_alert e || is_print e || is_elsewhere e)
                         (show_desktop_notification self u)).
  { intros u. eapply within_weaken; [|apply within_show_desktop_notification].
    intros e ->. reflexivity. }
  auto 20 with within.
Qed.

Lemma within_on_taken self boxes win : within dialog_events (on_taken self boxes win).
Proof.
  unfold on_taken.
  assert (Hsave : ∀ taken, within dialog_events (save_log self taken)).
  { intros taken. eapply within_weaken; [|apply within_save_log]. intros e.
    unfold dialog_events. destruct e; simpl; congruence. }
  apply within_bind; [apply within_attr|intros meds].
  destruct (Nat.eqb _ _); auto 20 with within.
Qed.

Lemma within_tk_callback self boxes win :
  within dialog_events (tk_callback (on_taken self boxes) win).
Proof.
  intros w. unfold tk_callback.
  destruct (within_on_taken self boxes win w) as [Hfuel HJ].
  destruct (on_taken self boxes win w) as [[a|e|] w']; simpl in *.
  - split; [discriminate|exact HJ].
  - split; [discriminate|]. intros J Htol H.
    exact (Htol (CallbackTraceback e) eq_refl _ _ (HJ J Htol H)).
  - congruence.
Qed.

Lemma within_mainloop self events win : within dialog_events (mainloop self events win).
Proof.
  revert win. induction events as [|ev rest IH]; intros win; simpl.
  - apply within_ret.
  - destruct ev; auto with within.
    apply within_bind; [apply within_tk_callback|intros win'].
    destruct (alive win'); auto with within.
Qed.

(** The part of [show_gui_reminder] that follows the opening of the
    dialog. *)
Lemma within_dialog_session self win :
  within dialog_events
    (events ← next_dialog;
     try_except (mainloop self events win)
       (λ e, match e with TclError => true | _ => false end) (mret false)).
Proof.
  apply within_bind; [apply within_next_dialog|intros events].
  apply within_try_except; [apply within_mainloop|apply within_ret].
Qed.

Lemma within_show_gui_reminder self :
  within (λ e, is_alert e || dialog_events e) (show_gui_reminder self).
Proof.
  unfold show_gui_reminder.
  apply within_bind; [apply within_attr|intros title].
  apply within_bind; [apply within_attr|intros meds].
  apply within_bind; [apply within_perform; reflexivity|intros _].
  eapply within_weaken; [|apply within_dialog_session].
  intros e ->. apply orb_true_r.
Qed.

(** * The confirmation dialog *)

Lemma ticked_length meds boxes : length (ticked meds boxes) ≤ length meds.
Proof.
  revert boxes. induction meds as [|med meds IH]; intros [|[|] boxes]; simpl; try lia.
  - specialize (IH boxes). lia.
  - specialize (IH boxes). lia.
Qed.

Lemma on_taken_partial self meds boxes win w :
  medicines self = Some meds →
  length (ticked meds boxes) < length meds →
  on_taken self boxes win w = (Ok win, emit (incomplete_warning meds) w).
Proof.
  intros Hm Hlt. unfold on_taken. rewrite Hm. run.
  destruct (Nat.eqb_spec (length (ticked meds boxes)) (length meds)) as [E|_]; [lia|].
  reflexivity.
Qed.

Lemma mainloop_partial self meds events win w :
  medicines self = Some meds →
  forallb (partial_click meds) events = true →
  alive win = true →
  (fst (mainloop self events win w) = Ok (completed win) ∨
   fst (mainloop self events win w) = Raise TclError) ∧
  written (history (snd (mainloop self events win w))) = written (history w).
Proof.
  intros Hm. revert w. induction events as [|ev rest IH]; intros w Hall Halive.
  - split; [left|]; reflexivity.
  - simpl in Hall. apply andb_true_iff in Hall as [Hev Hrest].
    destruct ev as [boxes| | | |o]; simpl.
    + simpl in Hev. apply Nat.ltb_lt in Hev.
      rewrite bind_run. unfold tk_callback.
      rewrite (on_taken_partial _ _ _ _ _ Hm Hev), Halive.
      apply (IH (emit (incomplete_warning meds) w) Hrest Halive).
    + split; [left|]; reflexivity.
    + split; [left|]; reflexivity.
    + split; [right|]; reflexivity.
    + rewrite bind_run. simpl. apply (IH (happen o w) Hrest Halive).
Qed.

(** C5.  With fewer boxes ticked than the slot has medicines, "Taken All"
    changes nothing but for a warning: [on_taken] leaves the window as it
    is and writes no log, and the main loop goes on with the same window.
    A dialog in which every "Taken All" click is of that kind returns False
    (not confirmed) and has written no log. *)
Theorem partial_confirmation_is_refused (self : MedReminder) (meds : list string)
    (title : string) :
  medicines self = Some meds →
  reminder_title self = Some title →
  (∀ boxes win w,
     length (ticked meds boxes) < length meds →
     on_taken self boxes win w = (Ok win, emit (incomplete_warning meds) w)) ∧
  (∀ boxes rest win w,
     length (ticked meds boxes) < length meds →
     alive win = true →
     mainloop self (ClickTaken boxes :: rest) win w
     = mainloop self rest win (emit (incomplete_warning meds) w)) ∧
  (∀ w,
     forallb (partial_click meds) (next_session w) = true →
     fst (show_gui_reminder self w) = Ok false ∧
     written (history (snd (show_gui_reminder self w))) = written (history w)).
Proof.
  intros Hm Ht. split; [|split].
  - intros boxes win w Hlt. apply (on_taken_partial _ _ _ _ _ Hm Hlt).
  - intros boxes rest win w Hlt Halive. simpl.
    rewrite bind_run. unfold tk_callback.
    rewrite (on_taken_partial _ _ _ _ _ Hm Hlt), Halive. reflexivity.
  - intros w Hall. unfold show_gui_reminder. rewrite Hm, Ht. run.
    unfold next_dialog, next_session in *. simpl.
    set (w1 := emit (Dialog _ _ _ _) w).
    assert (Hstep : ∀ events w2,
      written (history w2) = written (history w) →
      forallb (partial_click meds) events = true →
      fst (try_except (mainloop self events {| completed := false; alive := true |})
             (λ e, match e with TclError => true | _ => false end) (mret false) w2)
      = Ok false ∧
      written (history (snd (try_except
             (mainloop self events {| completed := false; alive := true |})
             (λ e, match e with TclError => true | _ => false end) (mret false) w2)))
      = written (history w)).
    { intros events w2 Hw2 Hev. unfold try_except.
      destruct (mainloop_partial self meds events
                  {| completed := false; alive := true |} w2 Hm Hev eq_refl)
        as [[Hr|Hr] Hwr];
        destruct (mainloop self events _ w2) as [r w3]; simpl in *; subst r;
        simpl; (split; [reflexivity|congruence]). }
    destruct (dialogs w) as [|d ds]; simpl.
    + apply (Hstep [] w1); reflexivity.
    + apply (Hstep d (put_dialogs ds w1)); [reflexivity|exact Hall].
Qed.

Lemma partial_confirmation_is_refused_two_of_three :
  let self := MedReminder_init "morning" in
  let w := boot Missing march_1st true [[ClickTaken [true; true; false]; ClickSnooze]] [] in
  on_taken self [true; true; false] {| completed := false; alive := true |} w
  = (Ok {| completed := false; alive := true |},
     emit (ShowWarning "Incomplete" "Please check all 3 medications") w) ∧
  fst (show_gui_reminder self w) = Ok false ∧
  written (history (snd (show_gui_reminder self w))) = [].
Proof.
  intros self w.
  destruct (partial_confirmation_is_refused self
              ["Elvanse 20mg"; "Escitalopram 5mg"; "Dexamfetamine 5mg"]
              "🌅 MORNING MEDICATION TIME!" eq_refl eq_refl) as (Hclick & _ & Hdialog).
  split.
  - apply Hclick. simpl. lia.
  - apply (Hdialog w). reflexivity.
Defined.

(** * The escalation *)

(** A reading of the history that skips the events of a computation is not
    changed by it. *)
Lemma within_skips {A B} (allowed skip : event → bool) (f : list event → B) (m : M A) w :
  within allowed m →
  (∀ e h, skip e = true → f (e :: h) = f h) →
  (∀ e, allowed e = true → skip e = true) →
  f (history (snd (m w))) = f (history w).
Proof.
  intros Hm Hskip Hsub. destruct (Hm w) as [_ HJ].
  apply (HJ (λ _ h, f h = f (history w))); [|reflexivity].
  intros e He fc h Hh. rewrite Hskip; [exact Hh|apply Hsub, He].
Qed.

Lemma waits_rev_skip e h : negb (is_sleep e) = true → waits_rev (e :: h) = waits_rev h.
Proof. destruct e; simpl; (reflexivity || discriminate). Qed.

(** A round that ends unconfirmed is followed by the wait of its attempt,
    whatever the cap is. *)
Lemma loop_body_waits self w self' :
  fst (loop_body self w) = Ok (Some self') →
  waits_rev (history (snd (loop_body self w)))
  = wait_after_attempt (reminder_count self) :: waits_rev (history w).
Proof.
  assert (Hquiet : ∀ {A} allowed (m : M A) v,
            within allowed m → (∀ e, allowed e = true → negb (is_sleep e) = true) →
            waits_rev (history (snd (m v))) = waits_rev (history v)).
  { intros A allowed m v Hm Hsub.
    apply (within_skips allowed (λ e, negb (is_sleep e))); auto using waits_rev_skip. }
  unfold loop_body. rewrite bind_run.
  pose proof (Hquiet _ _ _ w (within_already_taken_today self)) as H1.
  destruct (already_taken_today self w) as [[[|]| |] w1]; simpl in *; try discriminate.
  rewrite bind_run. simpl. rewrite bind_run.
  match goal with |- context [alert self ?v] =>
    pose proof (Hquiet _ _ _ v (within_alert self)) as H2;
    destruct (alert self v) as [[[]| |] w2] end; simpl in *; try discriminate.
  rewrite bind_run.
  pose proof (Hquiet _ _ _ w2 (within_show_gui_reminder self)) as H3.
  destruct (show_gui_reminder self w2) as [[[|]| |] w3]; simpl in *; try discriminate.
  rewrite bind_run. simpl. rewrite bind_run. unfold sleep. simpl.
  intros _.
  assert (Hw3 : waits_rev (history w3) = waits_rev (history w)).
  { rewrite H3, H2, H1; try reflexivity; intros e; destruct e; reflexivity || discriminate. }
  destruct (sleeps w3); simpl; rewrite Hw3; reflexivity.
Qed.

(** C8.  The wait that follows attempt [i] does not grow with [i]:
    [wait_time] is non-increasing in the counter, and a round of the cycle
    that ends unconfirmed at counter [i] sleeps [wait_time (i + 1)], so the
    wait after a later attempt is at most the wait after an earlier one. *)
Theorem wait_is_nonincreasing (i j : nat) :
  i ≤ j →
  wait_time j ≤ wait_time i ∧
  wait_after_attempt j ≤ wait_after_attempt i ∧
  (∀ self, wait_time (reminder_count (bump (at_attempt self j)))
           ≤ wait_time (reminder_count (bump (at_attempt self i)))) ∧
  (∀ self wi wj next_i next_j ni nj,
     fst (loop_body (at_attempt self i) wi) = Ok (Some next_i) →
     fst (loop_body (at_attempt self j) wj) = Ok (Some next_j) →
     head (waits_rev (history (snd (loop_body (at_attempt self i) wi)))) = Some ni →
     head (waits_rev (history (snd (loop_body (at_attempt self j) wj)))) = Some nj →
     nj ≤ ni).
Proof.
  assert (Hmono : ∀ a b, a ≤ b → wait_time b ≤ wait_time a).
  { intros a b Hab. unfold wait_time.
    destruct (Nat.ltb_spec a 3), (Nat.ltb_spec b 3),
             (Nat.ltb_spec a 6), (Nat.ltb_spec b 6); lia. }
  intros Hij. split; [apply Hmono, Hij|]. split; [|split].
  - apply Hmono. lia.
  - intros self. simpl. apply Hmono. lia.
  - intros self wi wj next_i next_j ni nj Hi Hj.
    rewrite (loop_body_waits _ _ _ Hi), (loop_body_waits _ _ _ Hj). simpl.
    intros [= <-] [= <-]. apply Hmono. lia.
Qed.

Lemma wait_is_nonincreasing_2_5 :
  2 ≤ 5 ∧ wait_after_attempt 5 ≤ wait_after_attempt 2.
Proof.
  split; [lia|]. apply (wait_is_nonincreasing 2 5). lia.
Defined.

Lemma alert_run self meds w :
  medicines self = Some meds →
  ∃ message,
    fst (alert self w) = Ok tt ∧
    filter is_alert (history (snd (alert self w)))
    = (if Nat.eqb (reminder_count self) 0 then [] else [AlarmSound])
      ++ NotifySend (if reminder_count self <? 3 then normal else critical)
           (if reminder_count self <? 3 then "10000" else "30000")
           message (notify_send_works w)
         :: filter is_alert (history w).
Proof.
  intros Hm. eexists. unfold alert, show_desktop_notification, play_alarm_sound.
  rewrite Hm.
  destruct (reminder_count self) as [|[|[|n]]]; simpl;
    run; unfold blocked; simpl;
    destruct (notify_send_works w); simpl; destruct (sleeps w); simpl; split; reflexivity.
Qed.

(** C1 (as amended).  At attempt [i] the notification is normal for
    [i < 3] and critical from 3 on, the alarm sounds from attempt 1 on, and
    the wait that follows, taken from the counter after its increment, is
    300 s for [i < 2], 180 s for [2 ≤ i < 5] and 60 s from 5 on.  The
    attempts 0,1,2,3 give the urgencies normal, normal, normal, critical,
    the sound flags false, true, true, true and the waits 300, 300, 180,
    180. *)
Theorem escalation_policy (self : MedReminder) (meds : list string) (w : world) :
  medicines self = Some meds →
  let i := reminder_count self in
  (∃ message,
     fst (alert self w) = Ok tt ∧
     filter is_alert (history (snd (alert self w)))
     = (if Nat.eqb i 0 then [] else [AlarmSound])
       ++ NotifySend (if i <? 3 then normal else critical)
            (if i <? 3 then "10000" else "30000")
            message (notify_send_works w)
          :: filter is_alert (history w)) ∧
  wait_time (reminder_count (bump self))
  = (if i <? 2 then 300 else if i <? 5 then 180 else 60) ∧
  take 4 (rounds (rev (history (snd (run_reminder_cycle (MedReminder_init "morning")
                                                         four_snoozes)))))
  = [(normal, false); (normal, true); (normal, true); (critical, true)] ∧
  waits (history (snd (run_reminder_cycle (MedReminder_init "morning") four_snoozes)))
  = [300; 300; 180; 180].
Proof.
  intros Hm i. split; [|split; [|split]].
  - exact (alert_run self meds w Hm).
  - simpl. fold i. unfold wait_time.
    destruct i as [|[|[|[|[|[|n]]]]]]; reflexivity.
  - vm_compute. reflexivity.
  - vm_compute. reflexivity.
Qed.

Lemma escalation_policy_third_attempt :
  let self := at_attempt (MedReminder_init "morning") 2 in
  medicines self = Some ["Elvanse 20mg"; "Escitalopram 5mg"; "Dexamfetamine 5mg"] ∧
  wait_time (reminder_count (bump self)) = 180.
Proof.
  intros self. split; [reflexivity|].
  destruct (escalation_policy self
              ["Elvanse 20mg"; "Escitalopram 5mg"; "Dexamfetamine 5mg"]
              four_snoozes eq_refl) as (_ & Hwait & _).
  exact Hwait.
Defined.

(** C1, the claim as stated fails: after attempt 2 the code waits 180 s,
    where the table of the claim has 300 s, so the attempts 0,1,2,3 are
    followed by the waits 300, 300, 180, 180. *)
Lemma escalation_table_fails_at_attempt_2 :
  wait_after_attempt 2 = 180 ∧
  wait_after_attempt 2 ≠ 300 ∧
  waits (history (snd (run_reminder_cycle (MedReminder_init "morning") four_snoozes)))
  ≠ [300; 300; 300; 180].
Proof.
  split; [reflexivity|]. split; [discriminate|].
  vm_compute. discriminate.
Qed.

(** * The reminder cycle *)

(** C4, what the code does when all ten dialogs are snoozed: it alerts ten
    times and ends with "Maximum reminders reached", but the tenth snooze is
    followed by the 60 s wait like the others before the loop test stops
    the cycle. *)
Theorem tenth_snooze_still_waits :
  let run := run_reminder_cycle (MedReminder_init "morning") ten_snoozes in
  fst run = Ok tt ∧
  length (filter is_dialog (history (snd run))) = 10 ∧
  waits (history (snd run)) = [300; 300; 180; 180; 180; 60; 60; 60; 60; 60] ∧
  take 3 (history (snd run))
  = [Print "Maximum reminders reached. Please take your medication!";
     Sleep 60;
     Print "Waiting 1 minutes before next reminder..."].
Proof. vm_compute. repeat split. Qed.

(** ** The loop needs no more fuel than it is given *)

Lemma within_any {A} allowed (m : M A) : within allowed m → within any_event m.
Proof. apply within_weaken. reflexivity. Qed.

Lemma within_loop_body self : within any_event (loop_body self).
Proof.
  unfold loop_body.
  apply within_bind; [apply (within_any _ _ (within_already_taken_today self))|intros taken].
  destruct taken; [auto with within|].
  apply within_bind; [auto with within|intros _].
  apply within_bind; [apply (within_any _ _ (within_alert self))|intros _].
  apply within_bind; [apply (within_any _ _ (within_show_gui_reminder self))|intros ok].
  destruct ok; auto 10 with within.
Qed.

Lemma loop_body_next self w self' :
  fst (loop_body self w) = Ok (Some self') → self' = bump self.
Proof.
  unfold loop_body. rewrite bind_run.
  destruct (already_taken_today self w) as [[[|]| |] w1]; simpl; try discriminate.
  rewrite bind_run. simpl. rewrite bind_run.
  destruct (alert self _) as [[[]| |] w2]; simpl; try discriminate.
  rewrite bind_run.
  destruct (show_gui_reminder self w2) as [[[|]| |] w3]; simpl; try discriminate.
  rewrite bind_run. simpl. rewrite bind_run. unfold sleep. simpl.
  destruct (sleeps w3); simpl; intros [= <-]; reflexivity.
Qed.

Lemma while_loop_fuel fuel : ∀ self w,
  max_reminders self - reminder_count self ≤ fuel →
  fst (while_loop fuel self w) ≠ NoFuel.
Proof.
  induction fuel as [|fuel IH]; intros self w Hfuel; simpl;
    destruct (Nat.ltb_spec (reminder_count self) (max_reminders self)) as [Hlt|Hge];
    try discriminate; try lia.
  rewrite bind_run.
  destruct (within_loop_body self w) as [Hbody _].
  destruct (loop_body self w) as [[[self'|]| |] w'] eqn:E; simpl in *;
    try discriminate; try congruence.
  assert (self' = bump self) as -> by (apply (loop_body_next self w); rewrite E; reflexivity).
  apply IH. simpl. lia.
Qed.

(** The cycle ends, normally or with an exception. *)
Lemma run_reminder_cycle_fuel self w : fst (run_reminder_cycle self w) ≠ NoFuel.
Proof.
  unfold run_reminder_cycle. rewrite bind_run.
  destruct (within_already_taken_today self w) as [Hcheck _].
  destruct (already_taken_today self w) as [[[|]| |] w1]; simpl in *;
    try discriminate; try congruence.
  rewrite bind_run. simpl. apply while_loop_fuel. lia.
Qed.

(** ** No alert on a complete slot *)

Section Guarded.

Variable self : MedReminder.
Variable init : file * datetime.

(** Without the alarm's pause, an alert is checked when the log was read
    since the file last could have changed and the slot is not complete
    in the file. *)
Lemma checked_strict h :
  checked false self init h = judged_fresh h && incomplete self (replay init h).
Proof.
  induction h as [|e h IH]; [reflexivity|].
  destruct e; simpl; try exact IH; reflexivity.
Qed.

Lemma checked_pause h :
  checked false self init h = true → checked true self init h = true.
Proof.
  induction h as [|e h IH]; [discriminate|].
  destruct e; simpl; auto; discriminate.
Qed.

Lemma consistent_tolerates e :
  is_alert e = false → tolerates (consistent self init) e.
Proof.
  intros He fc h [Hr Hg]. split.
  - simpl. rewrite Hr. reflexivity.
  - simpl. rewrite Hg, He. reflexivity.
Qed.

Lemma ready_checked fc h :
  ready self init fc h → ∀ pause, checked pause self init h = true.
Proof.
  intros ([Hr Hg] & Hf & Hi) pause.
  assert (Hstrict : checked false self init h = true)
    by (rewrite checked_strict, Hf, Hr, Hi; reflexivity).
  destruct pause; [apply checked_pause|]; exact Hstrict.
Qed.

Lemma ready_tolerates e :
  is_alert e || is_print e = true → tolerates (ready self init) e.
Proof.
  intros He fc h H. pose proof (ready_checked _ _ H) as Hc.
  destruct H as ([Hr Hg] & Hf & Hi).
  assert (Hsame : apply_event e fc = fc) by (destruct e; try discriminate; reflexivity).
  rewrite Hsame. split; [split|split].
  - simpl. rewrite Hr. exact Hsame.
  - simpl. rewrite Hg, Hc. destruct (is_alert e); reflexivity.
  - destruct e; try discriminate; exact Hf.
  - exact Hi.
Qed.

Lemma ready_consistent w : seen (ready self init) w → seen (consistent self init) w.
Proof. intros [H _]. exact H. Qed.

Lemma ready_alerted w : seen (ready self init) w → seen (alerted self init) w.
Proof. intros H. split; [exact (proj1 H)|exact (ready_checked _ _ H true)]. Qed.

Lemma alerted_consistent w : seen (alerted self init) w → seen (consistent self init) w.
Proof. intros [H _]. exact H. Qed.

Lemma consistent_within {A} allowed (m : M A) w :
  within allowed m →
  (∀ e, allowed e = true → is_alert e = false) →
  seen (consistent self init) w → seen (consistent self init) (snd (m w)).
Proof.
  intros Hm Hsub. destruct (Hm w) as [_ HJ]. apply HJ.
  intros e He. apply consistent_tolerates, Hsub, He.
Qed.

(** The completion check leaves the world ready for an alert exactly
    when it answers False. *)
Lemma already_taken_today_ready w :
  seen (consistent self init) w →
  seen (consistent self init) (snd (already_taken_today self w)) ∧
  (fst (already_taken_today self w) = Ok false →
   seen (ready self init) (snd (already_taken_today self w))).
Proof.
  intros H. rewrite already_taken_today_run. simpl.
  assert (Hc : seen (consistent self init) (emit (ReadLog (log_file_content w)) w)).
  { exact (consistent_tolerates (ReadLog _) eq_refl _ _ H). }
  split; [exact Hc|]. intros Hj. split; [exact Hc|]. split; [reflexivity|].
  unfold incomplete. simpl. rewrite Hj. reflexivity.
Qed.

Lemma show_desktop_notification_ready u w :
  seen (ready self init) w →
  seen (ready self init) (snd (show_desktop_notification self u w)).
Proof.
  destruct (within_show_desktop_notification self u w) as [_ HJ]. apply HJ.
  intros e He. apply ready_tolerates, He.
Qed.

(** The alarm sounds on a world that is ready, and what happens elsewhere
    while it sounds leaves the world alerted. *)
Lemma play_alarm_sound_alerted w :
  seen (ready self init) w → seen (alerted self init) (snd (play_alarm_sound w)).
Proof.
  intros H. unfold play_alarm_sound. rewrite bind_run. simpl.
  pose proof (ready_tolerates AlarmSound eq_refl _ _ H) as H1.
  unfold blocked. simpl. destruct (sleeps w) as [|o rest]; simpl.
  - exact (ready_alerted (emit AlarmSound w) H1).
  - split.
    + exact (consistent_tolerates (Elsewhere o) eq_refl _ _ (proj1 H1)).
    + exact (ready_checked _ _ H false).
Qed.

Lemma alert_alerted w :
  seen (ready self init) w → seen (alerted self init) (snd (alert self w)).
Proof.
  intros H. unfold alert.
  assert (Hboth : ∀ u, seen (alerted self init)
            (snd ((show_desktop_notification self u;; play_alarm_sound) w))).
  { intros u. rewrite bind_run.
    pose proof (show_desktop_notification_ready u w H) as H1.
    destruct (show_desktop_notification self u w) as [[[]| |] w1]; simpl in *;
      [exact (play_alarm_sound_alerted w1 H1)|exact (ready_alerted w1 H1)..]. }
  destruct (Nat.eqb _ 0); [|destruct (_ <? 3); apply Hboth].
  exact (ready_alerted _ (show_desktop_notification_ready normal w H)).
Qed.

Lemma show_gui_reminder_consistent w :
  seen (alerted self init) w → seen (consistent self init) (snd (show_gui_reminder self w)).
Proof.
  intros H. unfold show_gui_reminder.
  destruct (reminder_title self) as [title|]; [|exact (alerted_consistent _ H)].
  destruct (medicines self) as [meds|]; [|exact (alerted_consistent _ H)].
  set (w1 := emit (Dialog
              (if 3 <? reminder_count self then "red"
               else if 1 <? reminder_count self then "orange" else "lightblue")
              title ("Reminder #" +:+ Py.str (reminder_count self + 1)) meds) w).
  assert (H1 : seen (consistent self init) w1).
  { destruct H as [[Hr Hg] Hc]. split.
    - simpl. exact Hr.
    - simpl in *. rewrite Hg, Hc. reflexivity. }
  assert (Hsub : ∀ e, dialog_events e = true → is_alert e = false).
  { intros e. unfold dialog_events. destruct e; simpl; congruence. }
  exact (consistent_within _ _ w1
           (within_dialog_session self {| completed := false; alive := true |})
           Hsub H1).
Qed.

Lemma loop_body_consistent w :
  seen (consistent self init) w → seen (consistent self init) (snd (loop_body self w)).
Proof.
  intros H. unfold loop_body. rewrite bind_run.
  destruct (already_taken_today_ready w H) as [Hc Hr].
  destruct (already_taken_today self w) as [[[|]| |] w1]; simpl in *; try exact Hc.
  - exact (consistent_tolerates (Print _) eq_refl _ _ Hc).
  - specialize (Hr eq_refl). rewrite bind_run. simpl.
    match goal with |- context [emit ?e w1] => set (w2 := emit e w1) end.
    assert (H2 : seen (ready self init) w2).
    { exact (ready_tolerates (Print _) eq_refl _ _ Hr). }
    rewrite bind_run. pose proof (alert_alerted w2 H2) as H3.
    destruct (alert self w2) as [[[]| |] w3]; simpl in *;
      try exact (alerted_consistent _ H3).
    rewrite bind_run. pose proof (show_gui_reminder_consistent w3 H3) as H4.
    destruct (show_gui_reminder self w3) as [[[|]| |] w4]; simpl in *; try exact H4.
    + exact (consistent_tolerates (Print _) eq_refl _ _ H4).
    + rewrite bind_run. simpl.
      match goal with |- context [emit ?e w4] => set (w5 := emit e w4) end.
      assert (H5 : seen (consistent self init) w5).
      { exact (consistent_tolerates (Print _) eq_refl _ _ H4). }
      rewrite bind_run.
      match goal with |- context [sleep ?n w5] =>
        assert (H6 : seen (consistent self init) (snd (sleep n w5)));
        [|destruct (sleep n w5) as [[[]| |] w6]; simpl in *; exact H6] end.
      apply (consistent_within (λ e, is_sleep e || is_elsewhere e)); [| |exact H5].
      * apply within_sleep; [reflexivity|intros; reflexivity].
      * intros e. destruct e; simpl; congruence.
Qed.

End Guarded.

Lemma checked_same_slot me self init h :
  reminder_type me = reminder_type self → medicines me = medicines self →
  ∀ pause, checked pause me init h = checked pause self init h.
Proof.
  intros Hty Hmeds.
  assert (Hinc : ∀ fc, incomplete me fc = incomplete self fc).
  { intros fc. unfold incomplete, judge, already_taken_today.
    rewrite Hty, Hmeds. reflexivity. }
  induction h as [|e h IH]; intros pause; [reflexivity|].
  destruct e; simpl; try apply IH; try reflexivity.
  - apply Hinc.
  - rewrite (IH false). reflexivity.
Qed.

Lemma guarded_same_slot me self init h :
  reminder_type me = reminder_type self → medicines me = medicines self →
  guarded me init h = guarded self init h.
Proof.
  intros Hty Hmeds. induction h as [|e h IH]; [reflexivity|].
  simpl. rewrite IH, (checked_same_slot me self init h Hty Hmeds). reflexivity.
Qed.

Lemma while_loop_consistent self init fuel : ∀ me w,
  reminder_type me = reminder_type self → medicines me = medicines self →
  seen (consistent self init) w →
  seen (consistent self init) (snd (while_loop fuel me w)).
Proof.
  assert (Hjudge : ∀ me, reminder_type me = reminder_type self →
                         medicines me = medicines self →
                         ∀ fc h, consistent me init fc h ↔ consistent self init fc h).
  { intros me Hty Hmeds fc h. unfold consistent.
    rewrite (guarded_same_slot me self init h Hty Hmeds). reflexivity. }
  induction fuel as [|fuel IH]; intros me w Hty Hmeds H; simpl;
    destruct (reminder_count me <? max_reminders me);
    try exact H; try exact (consistent_tolerates self init (Print _) eq_refl _ _ H).
  rewrite bind_run.
  assert (Hbody : seen (consistent self init) (snd (loop_body me w))).
  { apply (Hjudge me Hty Hmeds), loop_body_consistent, (Hjudge me Hty Hmeds), H. }
  destruct (loop_body me w) as [[[me'|]| |] w'] eqn:E; simpl in *; try exact Hbody.
  assert (me' = bump me) as -> by (apply (loop_body_next me w); rewrite E; reflexivity).
  apply IH; [exact Hty|exact Hmeds|exact Hbody].
Qed.

Lemma run_reminder_cycle_consistent self init w :
  seen (consistent self init) w →
  seen (consistent self init) (snd (run_reminder_cycle self w)).
Proof.
  intros H. unfold run_reminder_cycle. rewrite bind_run.
  destruct (already_taken_today_ready self init w H) as [Hc _].
  destruct (already_taken_today self w) as [[[|]| |] w1]; simpl in *; try exact Hc.
  - exact (consistent_tolerates self init (Print _) eq_refl _ _ Hc).
  - rewrite bind_run. simpl. apply while_loop_consistent; [reflexivity..|].
    exact (consistent_tolerates self init (Print _) eq_refl _ _ Hc).
Qed.

Lemma guarded_suffix self init later h :
  guarded self init (later ++ h) = true → guarded self init h = true.
Proof.
  induction later as [|e later IH]; [auto|].
  simpl. intros H. apply andb_true_iff in H as [H _]. exact (IH H).
Qed.

(** What stands behind a dialog: the slot is not complete in the file, or
    the alarm has sounded since it was found so, something happened
    elsewhere in that time, and nothing has touched the file since. *)
Lemma checked_cases self init h :
  checked true self init h = true →
  incomplete self (replay init h) = true ∨
  ∃ quiet o before,
    h = quiet ++ Elsewhere o :: AlarmSound :: before ∧
    forallb (λ e, negb (is_read e || is_write e || is_elsewhere e)) quiet = true ∧
    incomplete self (replay init before) = true ∧
    replay init h = after_outside o (replay init before).
Proof.
  induction h as [|e h IH]; [discriminate|].
  destruct (is_read e || is_write e || is_elsewhere e) eqn:He.
  - destruct e; try discriminate; simpl; intros H.
    + left. exact H.
    + destruct h as [|[] before]; try discriminate. simpl in H.
      rewrite checked_strict in H. apply andb_true_iff in H as [_ Hi].
      right. exists [], o, before. repeat split; [exact Hi].
  - assert (Hsame : apply_event e (replay init h) = replay init h)
      by (destruct e; try discriminate; reflexivity).
    assert (Hpass : checked true self init (e :: h) = checked true self init h)
      by (destruct e; try discriminate; reflexivity).
    rewrite Hpass. intros H. simpl. rewrite Hsame.
    destruct (IH H) as [Hi|(quiet & o & before & -> & Hq & Hi & Hr)]; [left; exact Hi|].
    right. exists (e :: quiet), o, before. simpl. rewrite He, Hq. repeat split; assumption.
Qed.




(** ** A slot that is neither "morning" nor "afternoon" *)

Lemma judge_without_medicines self f t :
  medicines self = None →
  judge self f t ≠ Ok true ∧ judge self f t ≠ NoFuel.
Proof.
  intros Hm. unfold judge, already_taken_today.
  rewrite bind_run, load_log_run. simpl.
  assert (Hparse : parse f = Raise JSONDecodeError ∨ ∃ log, parse f = Ok log).
  { destruct f; simpl; eauto. }
  destruct Hparse as [->|[log ->]]; [split; discriminate|].
  run.
  destruct (Py.contains log _) as [[|]| |] eqn:E1; try (split; discriminate);
    [|exfalso; exact (py_contains_fuel _ _ E1)]. simpl.
  destruct (Py.getitem log _) as [today_log| |] eqn:E2; try (split; discriminate);
    [|exfalso; exact (py_getitem_fuel _ _ E2)].
  destruct (Py.contains today_log _) as [[|]| |] eqn:E3; try (split; discriminate);
    [|exfalso; exact (py_contains_fuel _ _ E3)]. simpl.
  destruct (Py.getitem today_log _) as [entry| |] eqn:E4; try (split; discriminate);
    [|exfalso; exact (py_getitem_fuel _ _ E4)].
  destruct (Py.get entry _ _) as [taken| |] eqn:E5; try (split; discriminate);
    [|exfalso; exact (py_get_fuel _ _ _ E5)].
  destruct (Py.len taken) as [n| |] eqn:E6; try (split; discriminate);
    [|exfalso; exact (py_len_fuel _ E6)].
  unfold attr. rewrite Hm. split; discriminate.
Qed.

Lemma init_unknown_slot rt :
  rt ≠ "morning" → rt ≠ "afternoon" →
  MedReminder_init rt
  = {| reminder_type := rt; medicines := None; reminder_title := None;
       log_file := "~/med_log.json"; reminder_count := 0; max_reminders := 10 |}.
Proof.
  intros H1 H2. unfold MedReminder_init.
  destruct (String.eqb_spec rt "morning") as [|_]; [contradiction|].
  destruct (String.eqb_spec rt "afternoon") as [|_]; [contradiction|].
  reflexivity.
Qed.

(** C9 (as amended).  For a slot key other than "morning" and "afternoon",
    given on the command line, the constructor sets neither the medicine
    list nor the title, and the cycle always ends with an exception and
    without any alert.  The first
    completion check is not where it fails when the log has nothing for
    today's slot: the check answers False, and the missing attribute is
    hit when the first notification is put together.  The check itself
    fails on the missing attribute when the log has an entry for today's
    slot. *)
Theorem unknown_slot_never_alerts (script rt : string) (w : world) :
  rt ≠ "morning" → rt ≠ "afternoon" →
  let self := MedReminder_init rt in
  let run := main [script; rt] w in
  medicines self = None ∧
  reminder_title self = None ∧
  (∃ e, fst run = Raise e) ∧
  filter is_alert (history (snd run)) = filter is_alert (history w) ∧
  (judge self (log_file_content w) (now w) = Ok false →
   fst (already_taken_today self w) = Ok false ∧
   fst run = Raise (AttributeError "medicines") ∧
   history (snd run)
   = Print "Reminder #1" :: ReadLog (log_file_content w)
     :: Print "Starting medication reminder cycle..." :: ReadLog (log_file_content w)
     :: history w) ∧
  (log_file_content w = Missing → judge self (log_file_content w) (now w) = Ok false) ∧
  (∀ m d e l,
     parse (log_file_content w) = Ok (JDict m) →
     m !! strftime_Ymd (now w) = Some (JDict d) →
     d !! rt = Some (JDict e) →
     e !! "medicines" = Some (JList l) →
     fst (already_taken_today self w) = Raise (AttributeError "medicines")).
Proof.
  intros H1 H2 self run. subst run self.
  change (main [script; rt]) with (run_reminder_cycle (MedReminder_init rt)).
  rewrite (init_unknown_slot rt H1 H2).
  set (self := {| reminder_type := rt; medicines := None |}).
  destruct (judge_without_medicines self (log_file_content w) (now w) eq_refl)
    as [Hnt Hnf].
  assert (Hrun : ∀ b, judge self (log_file_content w) (now w) = Ok b → b = false ∧
            run_reminder_cycle self w
            = (Raise (AttributeError "medicines"),
               emit (Print "Reminder #1")
                 (emit (ReadLog (log_file_content w))
                    (emit (Print "Starting medication reminder cycle...")
                       (emit (ReadLog (log_file_content w)) w))))).
  { intros [|] Hj; [congruence|]. split; [reflexivity|].
    unfold run_reminder_cycle. rewrite bind_run, already_taken_today_run, Hj.
    simpl. rewrite bind_run. simpl. rewrite bind_run. unfold loop_body.
    rewrite bind_run, already_taken_today_run. simpl. rewrite Hj. reflexivity. }
  split; [reflexivity|]. split; [reflexivity|].
  split; [|split; [|split; [|split]]].
  - destruct (judge self (log_file_content w) (now w)) as [b|e|] eqn:Hj.
    + destruct (Hrun b eq_refl) as [_ ->]. eexists. reflexivity.
    + exists e. unfold run_reminder_cycle.
      rewrite bind_run, already_taken_today_run, Hj. reflexivity.
    + congruence.
  - destruct (judge self (log_file_content w) (now w)) as [b|e|] eqn:Hj.
    + destruct (Hrun b eq_refl) as [_ ->]. reflexivity.
    + unfold run_reminder_cycle.
      rewrite bind_run, already_taken_today_run, Hj. reflexivity.
    + congruence.
  - intros Hj. rewrite already_taken_today_run.
    destruct (Hrun false Hj) as [_ ->]. rewrite Hj. repeat split.
  - intros Hf. rewrite Hf. reflexivity.
  - intros m d e l Hp Hd Hs He. rewrite already_taken_today_run. simpl.
    rewrite (judge_dict _ _ _ _ Hp), Hd. simpl. rewrite Hs.
    unfold counted. rewrite He. reflexivity.
Qed.

Lemma unknown_slot_never_alerts_evening :
  let self := MedReminder_init "evening" in
  let w := boot Missing march_1st true [[ClickSnooze]] [] in
  "evening" ≠ "morning" ∧ "evening" ≠ "afternoon" ∧
  fst (already_taken_today self w) = Ok false ∧
  fst (main ["med_reminder.py"; "evening"] w) = Raise (AttributeError "medicines") ∧
  filter is_alert (history (snd (main ["med_reminder.py"; "evening"] w))) = [].
Proof.
  intros self w.
  assert (H1 : "evening" ≠ "morning") by discriminate.
  assert (H2 : "evening" ≠ "afternoon") by discriminate.
  destruct (unknown_slot_never_alerts "med_reminder.py" "evening" w H1 H2)
    as (_ & _ & _ & Hquiet & Hlate & Hmissing & _).
  destruct (Hlate (Hmissing eq_refl)) as (Hcheck & Hraise & _).
  split; [exact H1|]. split; [exact H2|]. split; [exact Hcheck|].
  split; [exact Hraise|exact Hquiet].
Defined.

(** C9, the claim as stated fails: with no log file the first completion
    check of an "evening" reminder answers False; the missing attribute is
    only hit afterwards, when the first notification is put together. *)
Lemma first_check_of_unknown_slot_passes :
  fst (already_taken_today (MedReminder_init "evening")
         (boot Missing march_1st true [] [])) = Ok false ∧
  fst (already_taken_today (MedReminder_init "evening")
         (boot Missing march_1st true [] [])) ≠ Raise (AttributeError "medicines") ∧
  history (snd (main ["med_reminder.py"; "evening"]
                  (boot Missing march_1st true [] [])))
  = [Print "Reminder #1"; ReadLog Missing;
     Print "Starting medication reminder cycle..."; ReadLog Missing].
Proof. split; [reflexivity|]. split; [discriminate|reflexivity]. Qed.

(** * The alarm sound *)

Lemma play_from_paplay host candidates :
  installed host "paplay" = true →
  play_from host candidates
  = match find (path_exists host) candidates with
    | Some sound =>
        [Played "paplay" sound; HalfSecond; Played "paplay" sound; HalfSecond;
         Played "paplay" sound; HalfSecond]
    | None => [Bell 5]
    end.
Proof.
  intros Hp. induction candidates as [|sound rest IH]; [reflexivity|].
  simpl. unfold subprocess_run. rewrite Hp.
  destruct (path_exists host sound); [reflexivity|exact IH].
Qed.

Lemma play_from_aplay host candidates :
  installed host "paplay" = false →
  installed host "aplay" = true →
  play_from host candidates
  = match find (path_exists host) candidates with
    | Some sound => [Played "aplay" sound]
    | None => [Bell 5]
    end.
Proof.
  intros Hp Ha. induction candidates as [|sound rest IH]; [reflexivity|].
  simpl. unfold subprocess_run. rewrite Hp, Ha.
  destruct (path_exists host sound); [reflexivity|exact IH].
Qed.

Lemma play_from_no_player host candidates :
  installed host "paplay" = false →
  installed host "aplay" = false →
  play_from host candidates = [Bell 5].
Proof.
  intros Hp Ha. induction candidates as [|sound rest IH]; [reflexivity|].
  simpl. unfold subprocess_run. rewrite Hp, Ha.
  destruct (path_exists host sound); exact IH.
Qed.

(** X1.  With paplay installed the alarm plays the first sound file of the
    preference list that exists, three times with half a second after
    each; without paplay but with aplay it plays that file once; no other
    file is touched. *)
Theorem alarm_plays_first_existing_sound (host : sound_host) (sound : string) :
  find (path_exists host) sounds = Some sound →
  (installed host "paplay" = true →
   play_alarm_sound_on host
   = [Played "paplay" sound; HalfSecond; Played "paplay" sound; HalfSecond;
      Played "paplay" sound; HalfSecond]) ∧
  (installed host "paplay" = false → installed host "aplay" = true →
   play_alarm_sound_on host = [Played "aplay" sound]).
Proof.
  intros Hfind. unfold play_alarm_sound_on. split.
  - intros Hp. rewrite (play_from_paplay _ _ Hp), Hfind. reflexivity.
  - intros Hp Ha. rewrite (play_from_aplay _ _ Hp Ha), Hfind. reflexivity.
Qed.

Lemma alarm_plays_first_existing_sound_aplay_only :
  find (path_exists aplay_only_host) sounds
  = Some "/usr/share/sounds/sound-icons/piano-3.wav" ∧
  play_alarm_sound_on aplay_only_host
  = [Played "aplay" "/usr/share/sounds/sound-icons/piano-3.wav"].
Proof.
  assert (Hfind : find (path_exists aplay_only_host) sounds
                  = Some "/usr/share/sounds/sound-icons/piano-3.wav") by reflexivity.
  split; [exact Hfind|].
  apply (alarm_plays_first_existing_sound aplay_only_host _ Hfind); reflexivity.
Defined.

(** X2.  The alarm falls back to the terminal bell exactly when none of
    the four sound files exists or neither paplay nor aplay is installed;
    in every case it does something and returns. *)
Theorem alarm_bell_fallback (host : sound_host) :
  play_alarm_sound_on host ≠ [] ∧
  (play_alarm_sound_on host = [Bell 5] ↔
   find (path_exists host) sounds = None ∨
   (installed host "paplay" = false ∧ installed host "aplay" = false)).
Proof.
  unfold play_alarm_sound_on.
  destruct (installed host "paplay") eqn:Hp.
  - rewrite (play_from_paplay _ _ Hp).
    destruct (find _ sounds) as [sound|]; split; try discriminate.
    + split; [discriminate|]. intros [H|[H _]]; discriminate.
    + split; [left; reflexivity|reflexivity].
  - destruct (installed host "aplay") eqn:Ha.
    + rewrite (play_from_aplay _ _ Hp Ha).
      destruct (find _ sounds) as [sound|]; split; try discriminate.
      * split; [discriminate|]. intros [H|[_ H]]; discriminate.
      * split; [left; reflexivity|reflexivity].
    + rewrite (play_from_no_player _ _ Hp Ha). split; [discriminate|].
      split; [right; split; reflexivity|reflexivity].
Qed.

(** * The day key *)

Lemma string_take_app n a b : String.length a = n → string_take n (a +:+ b) = a.
Proof.
  revert n. induction a as [|c a IH]; intros n <-; simpl; [reflexivity|].
  rewrite IH; reflexivity.
Qed.

Lemma string_drop_app n a c b :
  String.length a = n → string_drop (S n) (a +:+ String c b) = b.
Proof.
  revert n. induction a as [|c' a IH]; intros n <-; simpl; [reflexivity|].
  apply IH. reflexivity.
Qed.

Lemma length_append a b : String.length (a +:+ b) = String.length a + String.length b.
Proof. induction a as [|c a IH]; simpl; [reflexivity|]. rewrite IH. reflexivity. Qed.

Lemma length_zeros k : String.length (Py.zeros k) = k.
Proof. induction k as [|k IH]; simpl; [reflexivity|]. f_equal. exact IH. Qed.

Lemma digits_value_str n : digits_value (Py.str n) = Some n.
Proof.
  unfold digits_value, Py.str, NilZero.string_of_uint.
  pose proof (Unsigned.of_to n) as Hn.
  destruct (Nat.to_uint n) eqn:E; try (rewrite NilEmpty.usu; simpl; f_equal; exact Hn).
  simpl. f_equal. exact Hn.
Qed.

Lemma digits_value_zeros k s : digits_value (Py.zeros k +:+ s) = digits_value s.
Proof.
  induction k as [|k IH]; [reflexivity|]. rewrite <- IH.
  change (Py.zeros (S k) +:+ s) with (String "0" (Py.zeros k +:+ s)).
  unfold digits_value. cbn [NilEmpty.uint_of_string].
  destruct (NilEmpty.uint_of_string (Py.zeros k +:+ s)); reflexivity.
Qed.

Lemma digits_value_zfill width n : digits_value (Py.zfill width n) = Some n.
Proof. unfold Py.zfill. rewrite digits_value_zeros. apply digits_value_str. Qed.

Lemma length_zfill width n :
  String.length (Py.str n) ≤ width → String.length (Py.zfill width n) = width.
Proof. intros H. unfold Py.zfill. rewrite length_append, length_zeros. lia. Qed.

Lemma length_str_4 n : n < 100 * 100 → String.length (Py.str n) ≤ 4.
Proof.
  intros Hn.
  assert (H : forallb (λ k, String.length (Py.str k) <=? 4) (seq 0 (100 * 100)) = true)
    by (vm_compute; reflexivity).
  rewrite forallb_forall in H. apply Nat.leb_le, H, in_seq. lia.
Qed.

Lemma length_str_2 n : n < 100 → String.length (Py.str n) ≤ 2.
Proof.
  intros Hn.
  assert (H : forallb (λ k, String.length (Py.str k) <=? 2) (seq 0 100) = true)
    by (vm_compute; reflexivity).
  rewrite forallb_forall in H. apply Nat.leb_le, H, in_seq. lia.
Qed.

Lemma read_day_key_strftime t :
  year t < 100 * 100 → month t < 100 → day t < 100 →
  read_day_key (strftime_Ymd t) = Some (year t, month t, day t) ∧
  String.length (strftime_Ymd t) = 10.
Proof.
  intros Hy Hm Hd.
  pose proof (length_zfill 4 _ (length_str_4 _ Hy)) as Ly.
  pose proof (length_zfill 2 _ (length_str_2 _ Hm)) as Lm.
  pose proof (length_zfill 2 _ (length_str_2 _ Hd)) as Ld.
  pose proof (digits_value_zfill 4 (year t)) as Vy.
  pose proof (digits_value_zfill 2 (month t)) as Vm.
  pose proof (digits_value_zfill 2 (day t)) as Vd.
  unfold strftime_Ymd, read_day_key.
  set (Y := Py.zfill 4 (year t)) in *. set (Mo := Py.zfill 2 (month t)) in *.
  set (D := Py.zfill 2 (day t)) in *.
  change (Y +:+ "-" +:+ Mo +:+ "-" +:+ D) with (Y +:+ String "-" (Mo +:+ String "-" D)).
  rewrite (string_take_app 4 Y _ Ly), (string_drop_app 4 Y _ _ Ly).
  assert (H8 : string_drop 8 (Y +:+ String "-" (Mo +:+ String "-" D)) = D).
  { change 8 with (S (4 + 3)).
    assert (Hsplit : ∀ n a s, String.length a = n →
              string_drop (S (n + 3)) (a +:+ String "-" s) = string_drop 3 s).
    { intros n a s. revert n. induction a as [|c a IH]; intros n <-; simpl; [reflexivity|].
      apply IH. reflexivity. }
    rewrite (Hsplit 4 Y _ Ly). apply (string_drop_app 2 Mo _ _ Lm). }
  rewrite H8, (string_take_app 2 Mo _ Lm), Vy, Vm.
  replace (string_take 2 D) with D.
  - rewrite Vd. split; [reflexivity|].
    rewrite !length_append. simpl. rewrite length_append. simpl. lia.
  - clear -Ld. destruct D as [|a [|b [|c D]]]; simpl in *; try discriminate. reflexivity.
Qed.

Lemma strftime_Ymd_injective t t' :
  calendar_date t → calendar_date t' →
  strftime_Ymd t = strftime_Ymd t' →
  year t = year t' ∧ month t = month t' ∧ day t = day t'.
Proof.
  intros (Hy & Hm & Hd) (Hy' & Hm' & Hd') E.
  destruct (read_day_key_strftime t) as [Hr _]; try lia.
  destruct (read_day_key_strftime t') as [Hr' _]; try lia.
  rewrite E, Hr' in Hr. injection Hr as -> -> ->. auto.
Qed.

(** X3.  The day key tells the calendar date: it has ten characters, reads back
    as the year, month and day it was made from, and two clocks get the
    same key exactly when they agree on the three. *)
Theorem day_key_tells_the_date (t t' : datetime) :
  calendar_date t → calendar_date t' →
  String.length (strftime_Ymd t) = 10 ∧
  read_day_key (strftime_Ymd t) = Some (year t, month t, day t) ∧
  (strftime_Ymd t = strftime_Ymd t'
   ↔ year t = year t' ∧ month t = month t' ∧ day t = day t').
Proof.
  intros (Hy & Hm & Hd) (Hy' & Hm' & Hd').
  destruct (read_day_key_strftime t) as [Hr Hl]; try lia.
  destruct (read_day_key_strftime t') as [Hr' _]; try lia.
  split; [exact Hl|]. split; [exact Hr|]. split.
  - intros E. rewrite E, Hr' in Hr. injection Hr as -> -> ->. auto.
  - intros (Ey & Em & Ed). unfold strftime_Ymd. rewrite Ey, Em, Ed. reflexivity.
Qed.

Lemma day_key_tells_the_date_march :
  calendar_date march_1st ∧ calendar_date march_2nd ∧
  strftime_Ymd march_1st ≠ strftime_Ymd march_2nd.
Proof.
  assert (H1 : calendar_date march_1st) by (unfold calendar_date; simpl; lia).
  assert (H2 : calendar_date march_2nd) by (unfold calendar_date; simpl; lia).
  split; [exact H1|]. split; [exact H2|].
  destruct (day_key_tells_the_date march_1st march_2nd H1 H2) as (_ & _ & Hiff).
  intros E. apply Hiff in E. destruct E as (_ & _ & E). discriminate E.
Defined.

(** * More on the log store *)

(** X4.  [save_log] writes the whole new document or nothing: it succeeds
    exactly when the log is missing or a dict whose value for today is
    absent or a dict, and a call that fails has left the file as it was and
    written nothing. *)
Theorem save_log_all_or_nothing (self : MedReminder) (taken : list string) (w : world) :
  (fst (save_log self taken w) = Ok tt
   ↔ ∃ m d, parse (log_file_content w) = Ok (JDict m) ∧
            day_dict m (strftime_Ymd (now w)) = Some d) ∧
  (fst (save_log self taken w) ≠ Ok tt →
   log_file_content (snd (save_log self taken w)) = log_file_content w ∧
   written (history (snd (save_log self taken w))) = written (history w)) ∧
  (∀ m d, parse (log_file_content w) = Ok (JDict m) →
          day_dict m (strftime_Ymd (now w)) = Some d →
          log_file_content (snd (save_log self taken w))
          = Stored (recorded self taken (now w) m d) ∧
          written (history (snd (save_log self taken w)))
          = recorded self taken (now w) m d :: written (history w)).
Proof.
  split; [split|split].
  - apply save_log_inv.
  - intros (m & d & Hp & Hd). rewrite (save_log_ok _ _ _ _ _ Hp Hd). reflexivity.
  - apply save_log_fail.
  - intros m d Hp Hd. rewrite (save_log_ok _ _ _ _ _ Hp Hd). split; reflexivity.
Qed.

Lemma save_log_all_or_nothing_list_day :
  let w := boot (Stored (JDict {[ "2024-03-01" := JList [] ]})) march_1st true [] [] in
  let self := MedReminder_init "morning" in
  fst (save_log self ["Elvanse 20mg"] w) = Raise TypeError ∧
  log_file_content (snd (save_log self ["Elvanse 20mg"] w)) = log_file_content w.
Proof.
  intros w self.
  assert (Hfail : fst (save_log self ["Elvanse 20mg"] w) = Raise TypeError)
    by (vm_compute; reflexivity).
  split; [exact Hfail|].
  destruct (save_log_all_or_nothing self ["Elvanse 20mg"] w) as (_ & Hkeep & _).
  apply Hkeep. rewrite Hfail. discriminate.
Defined.

(** X5.  Recording one slot does not change what the completion check answers
    for another slot, on any day. *)
Theorem save_log_keeps_other_slots (self other : MedReminder) (taken : list string)
    (w : world) (t : datetime) :
  fst (save_log self taken w) = Ok tt →
  reminder_type other ≠ reminder_type self →
  judge other (log_file_content (snd (save_log self taken w))) t
  = judge other (log_file_content w) t.
Proof.
  intros Hok Hne.
  destruct (save_log_inv _ _ _ Hok) as (m & d & Hp & Hd).
  rewrite (save_log_ok _ _ _ _ _ Hp Hd). simpl. unfold recorded.
  rewrite (judge_dict other (Stored (JDict _)) t _ eq_refl), (judge_dict other _ t _ Hp).
  destruct (decide (strftime_Ymd t = strftime_Ymd (now w))) as [E|E].
  - rewrite E, lookup_insert_eq, lookup_insert_ne by congruence.
    unfold day_dict in Hd.
    destruct (m !! strftime_Ymd (now w)) as [v|]; [destruct v; try discriminate|];
      injection Hd as <-; reflexivity.
  - rewrite lookup_insert_ne by congruence. reflexivity.
Qed.

Lemma save_log_keeps_other_slots_afternoon :
  let morning := MedReminder_init "morning" in
  let afternoon := MedReminder_init "afternoon" in
  let w := boot Missing march_1st true [] [] in
  let meds := ["Elvanse 20mg"; "Escitalopram 5mg"; "Dexamfetamine 5mg"] in
  fst (save_log morning meds w) = Ok tt ∧
  judge afternoon (log_file_content (snd (save_log morning meds w))) march_1st = Ok false.
Proof.
  intros morning afternoon w meds.
  assert (Hok : fst (save_log morning meds w) = Ok tt) by (vm_compute; reflexivity).
  split; [exact Hok|].
  rewrite (save_log_keeps_other_slots morning afternoon meds w march_1st Hok).
  - reflexivity.
  - discriminate.
Defined.

(** X6.  The completion check answers True only on a log of the expected shape:
    a dict with a dict for today that has a dict for the slot whose
    ['medicines'] has as many items as the slot has medicines. *)
Theorem already_taken_only_on_full_entry (self : MedReminder) (w : world) :
  fst (already_taken_today self w) = Ok true →
  ∃ m d e meds n,
    parse (log_file_content w) = Ok (JDict m) ∧
    m !! strftime_Ymd (now w) = Some (JDict d) ∧
    d !! reminder_type self = Some (JDict e) ∧
    medicines self = Some meds ∧
    Py.len (default (JList []) (e !! "medicines")) = Ok n ∧
    n = length meds.
Proof.
  rewrite already_taken_today_run. simpl. intros Hj.
  assert (Hdict : ∃ m, parse (log_file_content w) = Ok (JDict m)).
  { unfold judge, already_taken_today in Hj.
    rewrite bind_run, load_log_run in Hj. simpl in Hj.
    destruct (parse (log_file_content w)) as [log| |]; try discriminate.
    destruct log as [ | | | |s|l|m]; try discriminate; [| |eauto]; exfalso;
      revert Hj; run.
    - destruct (Py.is_substring _ _); discriminate.
    - destruct (existsb _ l); discriminate. }
  destruct Hdict as [m Hp]. rewrite (judge_dict _ _ _ _ Hp) in Hj.
  destruct (m !! strftime_Ymd (now w)) as [v|] eqn:E; [|discriminate].
  destruct v as [ | | | |s|l|d]; try discriminate.
  - destruct (Py.is_substring _ _); discriminate.
  - destruct (existsb _ l); discriminate.
  - destruct (d !! reminder_type self) as [v|] eqn:E2; [|discriminate].
    destruct v as [ | | | |s|l|e]; try discriminate.
    unfold counted in Hj.
    destruct (Py.len _) as [n| |] eqn:E3; try discriminate.
    destruct (medicines self) as [meds|] eqn:E4; try discriminate.
    injection Hj as Hn. apply Nat.eqb_eq in Hn.
    exists m, d, e, meds, n. auto 10.
Qed.

Lemma already_taken_only_on_full_entry_morning_done :
  let self := MedReminder_init "morning" in
  let w := boot morning_done march_1st true [] [] in
  fst (already_taken_today self w) = Ok true ∧
  ∃ e, stored_entry (log_file_content w) "2024-03-01" "morning" = Some (JDict e).
Proof.
  intros self w.
  assert (Ht : fst (already_taken_today self w) = Ok true) by (vm_compute; reflexivity).
  split; [exact Ht|].
  destruct (already_taken_only_on_full_entry self w Ht)
    as (m & d & e & meds & n & Hp & Hd & Hs & _).
  exists e. unfold stored_entry. rewrite Hp.
  change "2024-03-01" with (strftime_Ymd (now w)). rewrite Hd. exact Hs.
Defined.

(** X7.  A record made on one calendar date does not count on another: the
    check at a clock of a different date answers what it answered before
    the record. *)
Theorem record_does_not_carry_over (self : MedReminder) (taken : list string)
    (w : world) (t' : datetime) :
  fst (save_log self taken w) = Ok tt →
  calendar_date (now w) → calendar_date t' →
  (year t', month t', day t') ≠ (year (now w), month (now w), day (now w)) →
  judge self (log_file_content (snd (save_log self taken w))) t'
  = judge self (log_file_content w) t'.
Proof.
  intros Hok Hc Hc' Hne.
  destruct (save_log_inv _ _ _ Hok) as (m & d & Hp & Hd).
  rewrite (save_log_ok _ _ _ _ _ Hp Hd). simpl.
  apply (judge_other_day _ _ _ _ _ _ _ Hp).
  intros E. apply (strftime_Ymd_injective t' (now w) Hc' Hc) in E.
  destruct E as (Ey & Em & Ed). apply Hne. rewrite Ey, Em, Ed. reflexivity.
Qed.

Lemma record_does_not_carry_over_next_day :
  let self := MedReminder_init "morning" in
  let w := boot Missing march_1st true [] [] in
  let meds := ["Elvanse 20mg"; "Escitalopram 5mg"; "Dexamfetamine 5mg"] in
  fst (save_log self meds w) = Ok tt ∧
  judge self (log_file_content (snd (save_log self meds w))) march_1st = Ok true ∧
  judge self (log_file_content (snd (save_log self meds w))) march_2nd = Ok false.
Proof.
  intros self w meds.
  assert (Hok : fst (save_log self meds w) = Ok tt) by (vm_compute; reflexivity).
  split; [exact Hok|]. split; [vm_compute; reflexivity|].
  rewrite (record_does_not_carry_over self meds w march_2nd Hok).
  - reflexivity.
  - unfold calendar_date. simpl. lia.
  - unfold calendar_date. simpl. lia.
  - discriminate.
Defined.

(** * More on the confirmation dialog *)

Lemma ticked_full meds boxes :
  length (ticked meds boxes) = length meds → ticked meds boxes = meds.
Proof.
  revert boxes. induction meds as [|med meds IH]; intros boxes Hlen; [reflexivity|].
  destruct boxes as [|[|] boxes]; simpl in *; try discriminate.
  - f_equal. apply IH. lia.
  - pose proof (ticked_length meds boxes). lia.
Qed.

Lemma save_log_keeps_clock self taken w :
  now (snd (save_log self taken w)) = now w.
Proof.
  destruct (within_save_log self taken w) as [_ HJ].
  apply (HJ (λ fc _, snd fc = now w)); [|reflexivity].
  intros e He fc h Hfc. destruct e; try discriminate; exact Hfc.
Qed.

Lemma blocked_cases w :
  blocked w = (Ok tt, w) ∨
  ∃ o rest, sleeps w = o :: rest ∧ blocked w = (Ok tt, happen o (put_sleeps rest w)).
Proof.
  unfold blocked. destruct (sleeps w) as [|o rest]; [left; reflexivity|].
  right. exists o, rest. split; reflexivity.
Qed.

(** What a click on "Taken All" comes to, through Tk's callback wrapper:
    either everything was ticked and recorded, the "Success" box was shown
    and the window is gone, or the window stays and neither the file nor
    the clock has changed. *)
Lemma click_taken_cases self meds boxes win w :
  medicines self = Some meds →
  (∃ m d,
     parse (log_file_content w) = Ok (JDict m) ∧
     day_dict m (strftime_Ymd (now w)) = Some d ∧
     tk_callback (on_taken self boxes) win w
     = (Ok {| completed := true; alive := false |},
        snd (blocked
          (emit (ShowInfo "Success" "Great! All medications logged. See you tomorrow!")
             (emit (WriteLog (recorded self meds (now w) m d))
                (put_file (Stored (recorded self meds (now w) m d))
                   (emit (ReadLog (log_file_content w)) w))))))) ∨
  (∃ w', tk_callback (on_taken self boxes) win w = (Ok win, w') ∧
         log_file_content w' = log_file_content w ∧ now w' = now w ∧
         written (history w') = written (history w)).
Proof.
  intros Hm. unfold tk_callback, on_taken. rewrite Hm. run.
  destruct (Nat.eqb_spec (length (ticked meds boxes)) (length meds)) as [Hfull|Hpart].
  - rewrite (ticked_full _ _ Hfull).
    destruct (fst (save_log self meds w)) as [[]|e|] eqn:Hs.
    + left. destruct (save_log_inv _ _ _ Hs) as (m & d & Hp & Hd).
      exists m, d. split; [exact Hp|]. split; [exact Hd|].
      rewrite (save_log_ok _ _ _ _ _ Hp Hd).
      match goal with |- context [blocked ?v] =>
        destruct (blocked_cases v) as [->|(o & rest & _ & ->)] end; reflexivity.
    + right. pose proof (save_log_fail self meds w) as Hf.
      pose proof (save_log_keeps_clock self meds w) as Hc.
      destruct (save_log self meds w) as [r w1]. simpl in *. subst r.
      destruct Hf as [Hf Hw]; [discriminate|].
      eexists. split; [reflexivity|]. simpl. auto.
    + exfalso. exact (proj1 (within_save_log self meds w) Hs).
  - right. eexists. split; [reflexivity|]. simpl. auto.
Qed.

(** The world the "Success" box leaves. *)
Lemma after_success_box doc t w0 :
  log_file_content w0 = Stored doc → now w0 = t →
  let w' := snd (blocked (emit (ShowInfo "Success"
                                  "Great! All medications logged. See you tomorrow!") w0)) in
  written (history w') = written (history w0) ∧ after_record doc t w'.
Proof.
  intros Hf Hc. unfold after_record.
  match goal with |- context [blocked ?v] =>
    destruct (blocked_cases v) as [->|(o & rest & _ & ->)] end; simpl.
  - split; [reflexivity|]. left. rewrite Hf, Hc. reflexivity.
  - split; [reflexivity|]. right. exists o. split; [reflexivity|].
    rewrite Hf, Hc. reflexivity.
Qed.

(** How the main loop of a dialog can end: True with the slot recorded by
    one write, or False or a Tcl error with nothing written. *)
Lemma mainloop_verdict self meds events : ∀ w,
  medicines self = Some meds →
  let r := mainloop self events {| completed := false; alive := true |} w in
  (fst r = Ok true ∧
   ∃ t m d, written (history (snd r))
            = recorded self meds t m d :: written (history w) ∧
            after_record (recorded self meds t m d) t (snd r)) ∨
  ((fst r = Ok false ∨ fst r = Raise TclError) ∧
   written (history (snd r)) = written (history w)).
Proof.
  induction events as [|ev rest IH]; intros w Hm; simpl; [right; auto|].
  destruct ev as [boxes| | | |o]; simpl; try (right; auto; fail).
  - rewrite bind_run.
    destruct (click_taken_cases self meds boxes {| completed := false; alive := true |} w Hm)
      as [(m & d & _ & _ & ->)|(w1 & -> & Hf1 & Hc1 & Hw1)]; simpl.
    + left. split; [reflexivity|]. exists (now w), m, d.
      match goal with |- context [blocked (emit _ ?v)] =>
        destruct (after_success_box (recorded self meds (now w) m d) (now w) v
                    eq_refl eq_refl) as [Hw Ha] end.
      split; [rewrite Hw; reflexivity|exact Ha].
    + destruct (IH w1 Hm) as [(Hok & t & m & d & Hw & Ha)|(Hno & Hw)].
      * left. split; [exact Hok|]. exists t, m, d. rewrite Hw1 in Hw. split; assumption.
      * right. rewrite Hw1 in Hw. split; assumption.
  - rewrite bind_run. simpl. apply (IH (happen o w) Hm).
Qed.

(** The dialog of a slot with its medicines and title, when it returns:
    False with nothing written, or True with the slot recorded. *)
Lemma show_gui_reminder_verdict self meds title w :
  medicines self = Some meds → reminder_title self = Some title →
  let r := show_gui_reminder self w in
  (fst r = Ok false ∧ written (history (snd r)) = written (history w)) ∨
  (fst r = Ok true ∧
   ∃ t m d, written (history (snd r))
            = recorded self meds t m d :: written (history w) ∧
            after_record (recorded self meds t m d) t (snd r)).
Proof.
  intros Hm Ht. unfold show_gui_reminder. rewrite Hm, Ht. run.
  set (w1 := emit (Dialog _ _ _ _) w).
  unfold next_dialog. simpl.
  assert (Hsession : ∀ events w2, written (history w2) = written (history w) →
    let r := try_except (mainloop self events {| completed := false; alive := true |})
               (λ e, match e with TclError => true | _ => false end) (mret false) w2 in
    (fst r = Ok false ∧ written (history (snd r)) = written (history w)) ∨
    (fst r = Ok true ∧
     ∃ t m d, written (history (snd r))
              = recorded self meds t m d :: written (history w) ∧
              after_record (recorded self meds t m d) t (snd r))).
  { intros events w2 Hw2 r. subst r. unfold try_except.
    destruct (mainloop_verdict self meds events w2 Hm)
      as [(Hok & t & m & d & Hw & Ha)|([Hno|Hno] & Hw)];
      destruct (mainloop self events _ w2) as [res w3]; simpl in *; subst res; simpl.
    - right. split; [reflexivity|]. exists t, m, d.
      split; [rewrite Hw, Hw2; reflexivity|exact Ha].
    - left. split; [reflexivity|]. rewrite Hw. exact Hw2.
    - left. split; [reflexivity|]. rewrite Hw. exact Hw2. }
  destruct (dialogs w) as [|d ds]; simpl.
  - apply (Hsession [] w1). reflexivity.
  - apply (Hsession d (put_dialogs ds w1)). reflexivity.
Qed.

(** X8.  A dialog that returns True has recorded the slot, and that is the
    only thing it has written: the document it wrote holds, under the day
    key of the moment [t] of the write and the slot, an entry that lists
    exactly the medicines of the slot, and the completion check on that
    document at [t] answers True.  At the return the file and the clock
    are as the write left them, but for what happened elsewhere while the
    "Success" box was up. *)
Theorem confirmed_dialog_records_the_slot (self : MedReminder) (meds : list string)
    (title : string) (w : world) :
  medicines self = Some meds → reminder_title self = Some title →
  fst (show_gui_reminder self w) = Ok true →
  let w' := snd (show_gui_reminder self w) in
  ∃ t m d,
    let doc := recorded self meds t m d in
    written (history w') = doc :: written (history w) ∧
    stored_entry (Stored doc) (strftime_Ymd t) (reminder_type self)
    = Some (entry_literal self meds (isoformat t)) ∧
    judge self (Stored doc) t = Ok true ∧
    after_record doc t w'.
Proof.
  intros Hm Ht Hok w'. subst w'.
  destruct (show_gui_reminder_verdict self meds title w Hm Ht)
    as [(Hno & _)|(_ & t & m & d & Hw & Ha)]; [congruence|].
  exists t, m, d. simpl. split; [exact Hw|]. split; [|split; [|exact Ha]].
  - rewrite stored_entry_recorded, !decide_True by reflexivity. reflexivity.
  - rewrite (judge_after_save _ _ _ _ _ _ Hm), Nat.eqb_refl. reflexivity.
Qed.

Lemma confirmed_dialog_records_the_slot_second_try :
  let self := MedReminder_init "morning" in
  let w' := snd (show_gui_reminder self second_try) in
  fst (show_gui_reminder self second_try) = Ok true ∧
  length (written (history w')) = 1 ∧
  ∃ t doc, written (history w') = [doc] ∧ judge self (Stored doc) t = Ok true.
Proof.
  intros self w'.
  assert (Hok : fst (show_gui_reminder self second_try) = Ok true)
    by (vm_compute; reflexivity).
  destruct (confirmed_dialog_records_the_slot self
              ["Elvanse 20mg"; "Escitalopram 5mg"; "Dexamfetamine 5mg"]
              "🌅 MORNING MEDICATION TIME!" second_try eq_refl eq_refl Hok)
    as (t & m & d & Hw & _ & Hj & _).
  split; [exact Hok|]. split; [subst w'; rewrite Hw; reflexivity|].
  exists t, (recorded self ["Elvanse 20mg"; "Escitalopram 5mg"; "Dexamfetamine 5mg"] t m d).
  split; [exact Hw|exact Hj].
Defined.

(** X10.  When the log cannot take the record (it does not parse, or it is not a
    dict, or its value for today is not a dict), "Taken All" with every
    box ticked is not accepted: the exception stays in the callback, the
    window stays open and uncompleted, the file is as it was and nothing
    is written. *)
Theorem unrecordable_confirmation_is_dropped (self : MedReminder) (meds : list string)
    (boxes : list bool) (rest : list gui_event) (w : world) :
  medicines self = Some meds →
  length (ticked meds boxes) = length meds →
  fst (save_log self meds w) ≠ Ok tt →
  let win := {| completed := false; alive := true |} in
  ∃ e w',
    fst (save_log self meds w) = Raise e ∧
    tk_callback (on_taken self boxes) win w = (Ok win, w') ∧
    head (history w') = Some (CallbackTraceback e) ∧
    log_file_content w' = log_file_content w ∧
    written (history w') = written (history w) ∧
    mainloop self (ClickTaken boxes :: rest) win w = mainloop self rest win w'.
Proof.
  intros Hm Hfull Hfail win.
  destruct (fst (save_log self meds w)) as [[]|e|] eqn:Hs;
    [congruence| |exfalso; exact (proj1 (within_save_log self meds w) Hs)].
  destruct (save_log_fail self meds w) as [Hf Hw]; [congruence|].
  exists e, (emit (CallbackTraceback e) (snd (save_log self meds w))).
  assert (Hcb : tk_callback (on_taken self boxes) win w
                = (Ok win, emit (CallbackTraceback e) (snd (save_log self meds w)))).
  { unfold tk_callback, on_taken. rewrite Hm. run.
    rewrite Hfull, Nat.eqb_refl, (ticked_full _ _ Hfull).
    destruct (save_log self meds w) as [r w1]. simpl in Hs. subst r. reflexivity. }
  split; [reflexivity|]. split; [exact Hcb|]. split; [reflexivity|].
  split; [exact Hf|]. split; [exact Hw|].
  simpl. rewrite bind_run, Hcb. reflexivity.
Qed.

Lemma unrecordable_confirmation_is_dropped_list_day :
  let self := MedReminder_init "morning" in
  fst (already_taken_today self list_for_today) = Ok false ∧
  fst (show_gui_reminder self list_for_today) = Ok false ∧
  log_file_content (snd (show_gui_reminder self list_for_today))
  = log_file_content list_for_today ∧
  ∃ e w', tk_callback (on_taken self [true; true; true])
            {| completed := false; alive := true |} list_for_today
          = (Ok {| completed := false; alive := true |}, w') ∧
          head (history w') = Some (CallbackTraceback e).
Proof.
  intros self.
  split; [vm_compute; reflexivity|]. split; [vm_compute; reflexivity|].
  split; [vm_compute; reflexivity|].
  destruct (unrecordable_confirmation_is_dropped self
              ["Elvanse 20mg"; "Escitalopram 5mg"; "Dexamfetamine 5mg"]
              [true; true; true] [] list_for_today eq_refl eq_refl)
    as (e & w' & _ & Hcb & Hhead & _).
  - vm_compute. discriminate.
  - exists e, w'. split; [exact Hcb|exact Hhead].
Defined.

(** * The desktop notification *)

Lemma prefix_app s t : String.prefix s (s +:+ t) = true.
Proof.
  induction s as [|c s IH]; simpl; [destruct t; reflexivity|].
  destruct (ascii_dec c c); [exact IH|contradiction].
Qed.

Lemma is_substring_unfold needle hay :
  Py.is_substring needle hay
  = String.prefix needle hay ||
    match hay with
    | EmptyString => false
    | String _ rest => Py.is_substring needle rest
    end.
Proof. destruct hay; reflexivity. Qed.

Lemma is_substring_cons needle c hay :
  Py.is_substring needle hay = true → Py.is_substring needle (String c hay) = true.
Proof.
  intros H. rewrite is_substring_unfold.
  change (String.prefix needle (String c hay) || Py.is_substring needle hay = true).
  rewrite H. apply orb_true_r.
Qed.

Lemma is_substring_app needle before after :
  Py.is_substring needle (before +:+ needle +:+ after) = true.
Proof.
  induction before as [|c before IH].
  - change ("" +:+ needle +:+ after) with (needle +:+ after).
    rewrite is_substring_unfold, prefix_app. reflexivity.
  - change (String c before +:+ needle +:+ after)
      with (String c (before +:+ needle +:+ after)).
    apply is_substring_cons, IH.
Qed.

Lemma is_substring_in_tail needle before hay :
  Py.is_substring needle hay = true → Py.is_substring needle (before +:+ hay) = true.
Proof.
  intros H. induction before as [|c before IH]; [exact H|].
  change (String c before +:+ hay) with (String c (before +:+ hay)).
  apply is_substring_cons, IH.
Qed.

Lemma append_empty s : s +:+ "" = s.
Proof.
  induction s as [|c s IH]; [reflexivity|].
  change (String c (s +:+ "") = String c s). f_equal. exact IH.
Qed.

Lemma append_assoc_str a b c : (a +:+ b) +:+ c = a +:+ (b +:+ c).
Proof.
  induction a as [|x a IH]; [reflexivity|].
  change (String x ((a +:+ b) +:+ c) = String x (a +:+ (b +:+ c))). f_equal. exact IH.
Qed.

Lemma join_holds sep parts part :
  In part parts → ∃ before after, Py.join sep parts = before +:+ part +:+ after.
Proof.
  induction parts as [|p rest IH]; intros Hin; [contradiction|].
  destruct Hin as [->|Hin].
  - destruct rest as [|q rest].
    + exists "", "". simpl. symmetry. apply append_empty.
    + exists "", (sep +:+ Py.join sep (q :: rest)). reflexivity.
  - destruct rest as [|q rest]; [contradiction|].
    destruct (IH Hin) as (before & after & E).
    exists (p +:+ sep +:+ before), after.
    change (Py.join sep (p :: q :: rest)) with (p +:+ sep +:+ Py.join sep (q :: rest)).
    rewrite E, !append_assoc_str. reflexivity.
Qed.

(** X11.  The notification names every medicine of the slot, each on a bullet
    line of its message, with a timeout of 30 s when critical and 10 s
    otherwise.  When notify-send cannot be run or fails, the call still
    returns: it prints the same message on the console instead.  The log
    file is not touched. *)
Theorem notification_names_every_medicine (self : MedReminder) (meds : list string)
    (u : urgency) (w : world) :
  medicines self = Some meds →
  ∃ message,
    fst (show_desktop_notification self u w) = Ok tt ∧
    log_file_content (snd (show_desktop_notification self u w)) = log_file_content w ∧
    (∀ med, In med meds → Py.is_substring ("• " +:+ med) message = true) ∧
    history (snd (show_desktop_notification self u w))
    = (if notify_send_works w then []
       else [Print ("*** " +:+ message +:+ " ***");
             Print "Desktop notifications not available - showing console message"])
      ++ NotifySend u (match u with critical => "30000" | normal => "10000" end)
           message (notify_send_works w)
         :: history w.
Proof.
  intros Hm. eexists. unfold show_desktop_notification. rewrite Hm. run.
  split; [destruct (notify_send_works w); reflexivity|].
  split; [destruct (notify_send_works w); reflexivity|].
  split; [|destruct (notify_send_works w); reflexivity].
  intros med Hin.
  destruct (join_holds Py.newline ((λ m, "• " +:+ m) <$> meds) ("• " +:+ med))
    as (before & after & E).
  { apply in_map_iff. exists med. split; [reflexivity|exact Hin]. }
  rewrite E. do 3 apply is_substring_in_tail. apply is_substring_app.
Qed.

Lemma notification_names_every_medicine_console :
  let self := MedReminder_init "afternoon" in
  let w := boot Missing march_1st false [] [] in
  fst (show_desktop_notification self critical w) = Ok tt ∧
  length (history (snd (show_desktop_notification self critical w))) = 3.
Proof.
  intros self w.
  destruct (notification_names_every_medicine self
              ["Dexamfetamine 5mg (afternoon dose)"] critical w eq_refl)
    as (message & Hok & _ & _ & Hh).
  split; [exact Hok|]. rewrite Hh. reflexivity.
Defined.

(** * Bounds on a run of the cycle *)

Lemma within_show_desktop_notification_only self u :
  within alert_events (show_desktop_notification self u).
Proof. unfold show_desktop_notification. auto 20 with within. Qed.

Lemma within_alert_only self : within alert_events (alert self).
Proof.
  unfold alert, play_alarm_sound.
  pose proof (within_show_desktop_notification_only self). auto 20 with within.
Qed.

Lemma dialogs_shown_skip e h : negb (is_dialog e) = true → dialogs_shown (e :: h) = dialogs_shown h.
Proof. destruct e; simpl; (reflexivity || discriminate). Qed.

(** What a history shows of dialogs and waits. *)
Lemma measures_kept {A} allowed (m : M A) w :
  within allowed m →
  (∀ e, allowed e = true → negb (is_dialog e) = true ∧ negb (is_sleep e) = true) →
  dialogs_shown (history (snd (m w))) = dialogs_shown (history w) ∧
  waits_rev (history (snd (m w))) = waits_rev (history w).
Proof.
  intros Hm Hsub. split.
  - apply (within_skips allowed (λ e, negb (is_dialog e))); auto using dialogs_shown_skip.
    intros e He. apply Hsub, He.
  - apply (within_skips allowed (λ e, negb (is_sleep e))); auto using waits_rev_skip.
    intros e He. apply Hsub, He.
Qed.

Lemma show_gui_reminder_measures self w :
  dialogs_shown (history (snd (show_gui_reminder self w))) ≤ S (dialogs_shown (history w)) ∧
  waits_rev (history (snd (show_gui_reminder self w))) = waits_rev (history w).
Proof.
  unfold show_gui_reminder.
  destruct (reminder_title self) as [title|]; [|simpl; split; [lia|reflexivity]].
  destruct (medicines self) as [meds|]; [|simpl; split; [lia|reflexivity]].
  set (w1 := emit (Dialog
                (if 3 <? reminder_count self then "red"
                 else if 1 <? reminder_count self then "orange" else "lightblue")
                title ("Reminder #" +:+ Py.str (reminder_count self + 1)) meds) w).
  destruct (measures_kept dialog_events _ w1
              (within_dialog_session self {| completed := false; alive := true |}))
    as [Hd Hw].
  { intros e. unfold dialog_events. destruct e; simpl; intros; (split; congruence). }
  split.
  - etransitivity; [apply Nat.eq_le_incl; exact Hd|]. reflexivity.
  - exact Hw.
Qed.

(** One pass through the loop body opens at most one dialog, and sleeps
    only when it goes on to the next round. *)
Lemma loop_body_measures self w :
  dialogs_shown (history (snd (loop_body self w))) ≤ S (dialogs_shown (history w)) ∧
  (waits_rev (history (snd (loop_body self w))) = waits_rev (history w) ∨
   (fst (loop_body self w) = Ok (Some (bump self)) ∧
    waits_rev (history (snd (loop_body self w)))
    = wait_after_attempt (reminder_count self) :: waits_rev (history w))).
Proof.
  unfold loop_body. rewrite bind_run.
  destruct (measures_kept is_read _ w (within_already_taken_today self)) as [Hd1 Hw1].
  { intros e. destruct e; simpl; intros; (split; congruence). }
  destruct (already_taken_today self w) as [[[|]| |] w1]; simpl in *;
    try (rewrite Hd1, Hw1; split; [lia|left; reflexivity]).
  rewrite bind_run. simpl. rewrite bind_run.
  match goal with |- context [alert self ?v] =>
    destruct (measures_kept alert_events _ v (within_alert_only self)) as [Hd2 Hw2];
    [intros e; unfold alert_events; destruct e; simpl; intros; (split; congruence)|];
    destruct (alert self v) as [[[]| |] w2] end; simpl in *;
    try (rewrite Hd2, Hw2, Hd1, Hw1; split; [lia|left; reflexivity]).
  rewrite bind_run.
  destruct (show_gui_reminder_measures self w2) as [Hd3 Hw3].
  destruct (show_gui_reminder self w2) as [[[|]| |] w3]; simpl in *;
    try (rewrite Hw3, Hw2, Hw1; split; [lia|left; reflexivity]).
  rewrite bind_run. simpl. rewrite bind_run. unfold sleep. simpl.
  destruct (sleeps w3); simpl; rewrite Hw3, Hw2, Hw1; (split; [lia|right; split; reflexivity]).
Qed.

Lemma remaining_wait_step count cap :
  count < cap →
  remaining_wait count cap = wait_after_attempt count + remaining_wait (count + 1) cap.
Proof.
  intros Hlt. unfold remaining_wait.
  replace (cap - count) with (S (cap - (count + 1))) by lia.
  simpl. rewrite Nat.add_1_r. reflexivity.
Qed.

Lemma while_loop_measures fuel : ∀ self w,
  let h := history w in
  let h' := history (snd (while_loop fuel self w)) in
  dialogs_shown h' ≤ dialogs_shown h + (max_reminders self - reminder_count self) ∧
  length (waits_rev h') ≤ length (waits_rev h) + (max_reminders self - reminder_count self) ∧
  time_waited h' ≤ time_waited h + remaining_wait (reminder_count self) (max_reminders self).
Proof.
  induction fuel as [|fuel IH]; intros self w; cbv zeta; simpl while_loop;
    destruct (Nat.ltb_spec (reminder_count self) (max_reminders self)) as [Hlt|Hge];
    try (unfold time_waited, print, perform; simpl; repeat split; lia).
  rewrite bind_run.
  destruct (loop_body_measures self w) as [Hd Hw].
  destruct (loop_body self w) as [[[next|]| |] w1] eqn:E; simpl in *.
  - destruct Hw as [Hw|[Hnext Hw]].
    + assert (next = bump self) as ->
        by (apply (loop_body_next self w); rewrite E; reflexivity).
      destruct (IH (bump self) w1) as (Id & Il & It). simpl in *.
      unfold time_waited in *. rewrite Hw in *.
      rewrite (remaining_wait_step _ _ Hlt). repeat split; lia.
    + injection Hnext as ->.
      destruct (IH (bump self) w1) as (Id & Il & It). simpl in *.
      unfold time_waited in *. rewrite Hw in *. simpl in *.
      rewrite (remaining_wait_step _ _ Hlt). repeat split; lia.
  - destruct Hw as [Hw|[Hnext _]]; [|discriminate].
    unfold time_waited. rewrite Hw. repeat split; lia.
  - destruct Hw as [Hw|[Hnext _]]; [|discriminate].
    unfold time_waited. rewrite Hw. repeat split; lia.
  - destruct Hw as [Hw|[Hnext _]]; [|discriminate].
    unfold time_waited. rewrite Hw. repeat split; lia.
Qed.

(** X12.  Whatever the user and other processes do, a run of the cycle
    opens at most [max_reminders - reminder_count] dialogs, waits between
    reminders at most that many times, and the waits add up to no more
    than those of that many unconfirmed rounds: for a new reminder at most
    ten dialogs and 1440 seconds of waiting.  (The time spent inside a
    dialog or while the alarm sounds is not a wait and is not bounded.) *)
Theorem cycle_is_bounded (self : MedReminder) (w : world) :
  let run := run_reminder_cycle self w in
  dialogs_shown (history (snd run))
  ≤ dialogs_shown (history w) + (max_reminders self - reminder_count self) ∧
  length (waits_rev (history (snd run)))
  ≤ length (waits_rev (history w)) + (max_reminders self - reminder_count self) ∧
  time_waited (history (snd run))
  ≤ time_waited (history w) + remaining_wait (reminder_count self) (max_reminders self) ∧
  ∀ slot f t notify ds ss,
    let new := run_reminder_cycle (MedReminder_init slot) (boot f t notify ds ss) in
    dialogs_shown (history (snd new)) ≤ 10 ∧ time_waited (history (snd new)) ≤ 1440.
Proof.
  assert (Hrun : ∀ me v,
    dialogs_shown (history (snd (run_reminder_cycle me v)))
    ≤ dialogs_shown (history v) + (max_reminders me - reminder_count me) ∧
    length (waits_rev (history (snd (run_reminder_cycle me v))))
    ≤ length (waits_rev (history v)) + (max_reminders me - reminder_count me) ∧
    time_waited (history (snd (run_reminder_cycle me v)))
    ≤ time_waited (history v) + remaining_wait (reminder_count me) (max_reminders me)).
  { intros me v. unfold run_reminder_cycle. rewrite bind_run.
    destruct (measures_kept is_read _ v (within_already_taken_today me)) as [Hd1 Hw1].
    { intros e. destruct e; simpl; intros; (split; congruence). }
    destruct (already_taken_today me v) as [[[|]| |] w1]; simpl in *;
      try (unfold time_waited; simpl; rewrite ?Hd1, ?Hw1; repeat split; lia).
    rewrite bind_run. simpl.
    match goal with |- context [while_loop ?n me ?v1] =>
      destruct (while_loop_measures n me v1) as (Id & Il & It) end.
    unfold time_waited in *. simpl in *. rewrite Hd1, Hw1 in *. repeat split; lia. }
  intros run.
  split; [apply Hrun|]. split; [apply Hrun|]. split; [apply Hrun|].
  intros slot f t notify ds ss new.
  destruct (Hrun (MedReminder_init slot) (boot f t notify ds ss)) as (Hd & _ & Ht).
  subst new.
  assert (Hnew : max_reminders (MedReminder_init slot) = 10 ∧
                 reminder_count (MedReminder_init slot) = 0).
  { unfold MedReminder_init.
    destruct (String.eqb slot "morning"), (String.eqb slot "afternoon"); split; reflexivity. }
  destruct Hnew as [Hcap Hcount]. rewrite Hcap, Hcount in Hd, Ht.
  change (dialogs_shown (history (boot f t notify ds ss))) with 0 in Hd.
  change (time_waited (history (boot f t notify ds ss))) with 0 in Ht.
  change (remaining_wait 0 10) with 1440 in Ht.
  split; [exact Hd|exact Ht].
Qed.

(** * What a run of the cycle records *)

Lemma written_skip e h : negb (is_write e) = true → written (e :: h) = written h.
Proof. destruct e; simpl; (reflexivity || discriminate). Qed.

Lemma written_kept {A} allowed (m : M A) w :
  within allowed m →
  (∀ e, allowed e = true → negb (is_write e) = true) →
  written (history (snd (m w))) = written (history w).
Proof.
  intros Hm Hsub.
  apply (within_skips allowed (λ e, negb (is_write e))); auto using written_skip.
Qed.

Lemma judge_same_slot me self f t :
  reminder_type me = reminder_type self → medicines me = medicines self →
  judge me f t = judge self f t.
Proof.
  intros Hty Hmeds. unfold judge, already_taken_today. rewrite Hty, Hmeds. reflexivity.
Qed.

Lemma loop_body_verdict self meds title w :
  medicines self = Some meds → reminder_title self = Some title →
  let r := loop_body self w in
  match fst r with
  | Ok None => written (history (snd r)) = written (history w) ∨
               just_recorded self (written (history w)) (snd r)
  | Ok (Some _) | Raise _ => written (history (snd r)) = written (history w)
  | NoFuel => False
  end.
Proof.
  intros Hm Ht. unfold loop_body. rewrite bind_run, already_taken_today_run.
  pose proof (proj1 (within_already_taken_today self w)) as Hfuel.
  rewrite already_taken_today_run in Hfuel. simpl in Hfuel.
  destruct (judge self (log_file_content w) (now w)) as [[|]|e|] eqn:Hj; simpl.
  - left. reflexivity.
  - rewrite bind_run. simpl. rewrite bind_run.
    set (w1 := emit (Print _) (emit (ReadLog _) w)).
    destruct (alert_run self meds w1 Hm) as (message & Hok & _).
    assert (Hw2 : written (history (snd (alert self w1))) = written (history w)).
    { rewrite (written_kept alert_events _ w1 (within_alert_only self)); [reflexivity|].
      intros e. unfold alert_events. destruct e; simpl; congruence. }
    destruct (alert self w1) as [res w2]. simpl in Hok, Hw2. subst res. simpl.
    rewrite bind_run.
    destruct (show_gui_reminder_verdict self meds title w2 Hm Ht)
      as [(Hno & Hw)|(Hyes & t & m & d & Hw & _)];
      destruct (show_gui_reminder self w2) as [res w3]; simpl in *; subst res; simpl.
    + rewrite bind_run. simpl. rewrite bind_run. unfold sleep. simpl.
      destruct (sleeps w3); simpl; rewrite Hw; exact Hw2.
    + right. exists (recorded self meds t m d), t. simpl. rewrite Hw, Hw2.
      split; [reflexivity|]. split; [|reflexivity].
      rewrite (judge_after_save _ _ _ _ _ _ Hm), Nat.eqb_refl. reflexivity.
  - reflexivity.
  - exact (Hfuel eq_refl).
Qed.

Lemma while_loop_verdict self meds title fuel : ∀ me w,
  reminder_type me = reminder_type self → medicines me = medicines self →
  reminder_title me = reminder_title self →
  medicines self = Some meds → reminder_title self = Some title →
  max_reminders me - reminder_count me ≤ fuel →
  let r := while_loop fuel me w in
  match fst r with
  | Ok _ => written (history (snd r)) = written (history w) ∨
            just_recorded self (written (history w)) (snd r)
  | Raise _ => written (history (snd r)) = written (history w)
  | NoFuel => False
  end.
Proof.
  induction fuel as [|fuel IH]; intros me w Hty Hmeds Htitle Hm Ht Hfuel; simpl;
    destruct (Nat.ltb_spec (reminder_count me) (max_reminders me)) as [Hlt|Hge];
    try (left; reflexivity); try lia.
  rewrite bind_run.
  assert (Hm' : medicines me = Some meds) by congruence.
  assert (Ht' : reminder_title me = Some title) by congruence.
  pose proof (loop_body_verdict me meds title w Hm' Ht') as Hbody. simpl in Hbody.
  destruct (loop_body me w) as [[[next|]| |] w1] eqn:E; simpl in *.
  - assert (next = bump me) as -> by (apply (loop_body_next me w); rewrite E; reflexivity).
    rewrite <- Hbody.
    apply (IH (bump me) w1); simpl; try assumption. lia.
  - destruct Hbody as [Hsame|(doc & t & Hw & Hj & Hh)]; [left; exact Hsame|].
    right. exists doc, t. rewrite <- (judge_same_slot me self) by assumption. auto.
  - exact Hbody.
  - exact Hbody.
Qed.

Lemma run_reminder_cycle_verdict self meds title w :
  medicines self = Some meds → reminder_title self = Some title →
  let r := run_reminder_cycle self w in
  match fst r with
  | Ok _ => written (history (snd r)) = written (history w) ∨
            just_recorded self (written (history w)) (snd r)
  | Raise _ => written (history (snd r)) = written (history w)
  | NoFuel => False
  end.
Proof.
  intros Hm Ht. unfold run_reminder_cycle. rewrite bind_run, already_taken_today_run.
  pose proof (proj1 (within_already_taken_today self w)) as Hfuel.
  rewrite already_taken_today_run in Hfuel. simpl in Hfuel.
  destruct (judge self (log_file_content w) (now w)) as [[|]|e|] eqn:Hj; simpl.
  - left. reflexivity.
  - rewrite bind_run. simpl.
    set (w1 := emit (Print _) (emit (ReadLog _) w)).
    apply (while_loop_verdict self meds title _ self w1); auto.
  - reflexivity.
  - exact (Hfuel eq_refl).
Qed.



(** * One round *)

(** The alert of a slot with its medicines returns; it writes nothing,
    does not wait and opens no dialog; at the first attempt, where no
    alarm sounds, it leaves the file, the clock and what is to come as
    they are. *)
Lemma alert_leaves self meds w :
  medicines self = Some meds →
  ∃ w2, alert self w = (Ok tt, w2) ∧
        dialogs w2 = dialogs w ∧
        written (history w2) = written (history w) ∧
        waits_rev (history w2) = waits_rev (history w) ∧
        dialogs_shown (history w2) = dialogs_shown (history w) ∧
        last_urgency (history w2)
        = Some (if reminder_count self <? 3 then normal else critical) ∧
        (reminder_count self = 0 →
         log_file_content w2 = log_file_content w ∧ now w2 = now w).
Proof.
  intros Hm. unfold alert, show_desktop_notification, play_alarm_sound. rewrite Hm.
  destruct (reminder_count self) as [|[|[|n]]]; simpl;
    run; unfold blocked; simpl;
    destruct (notify_send_works w); simpl; destruct (sleeps w); simpl;
    eexists; repeat split; (reflexivity || discriminate).
Qed.



Lemma last_dialog_colour_skip e h :
  negb (is_dialog e) = true → last_dialog_colour (e :: h) = last_dialog_colour h.
Proof. destruct e; simpl; (reflexivity || discriminate). Qed.

Lemma last_urgency_skip e h :
  negb (is_notify e) = true → last_urgency (e :: h) = last_urgency h.
Proof. destruct e; simpl; (reflexivity || discriminate). Qed.

(** The dialog of a slot with its medicines and title opens in the colour
    of its attempt and sends no notification. *)
Lemma show_gui_reminder_colour self meds title w :
  medicines self = Some meds → reminder_title self = Some title →
  let h' := history (snd (show_gui_reminder self w)) in
  last_dialog_colour h'
  = Some (if 3 <? reminder_count self then "red"
          else if 1 <? reminder_count self then "orange" else "lightblue") ∧
  last_urgency h' = last_urgency (history w).
Proof.
  intros Hm Ht. unfold show_gui_reminder. rewrite Hm, Ht.
  set (w1 := emit (Dialog
                (if 3 <? reminder_count self then "red"
                 else if 1 <? reminder_count self then "orange" else "lightblue")
                title ("Reminder #" +:+ Py.str (reminder_count self + 1)) meds) w).
  pose proof (within_dialog_session self {| completed := false; alive := true |}) as Hin.
  assert (Hsub : ∀ e, dialog_events e = true →
                      negb (is_dialog e) = true ∧ negb (is_notify e) = true).
  { intros e. unfold dialog_events. destruct e; simpl; intros; (split; congruence). }
  split.
  - exact (within_skips dialog_events (λ e, negb (is_dialog e)) last_dialog_colour _ w1 Hin
             last_dialog_colour_skip (λ e He, proj1 (Hsub e He))).
  - exact (within_skips dialog_events (λ e, negb (is_notify e)) last_urgency _ w1 Hin
             last_urgency_skip (λ e He, proj2 (Hsub e He))).
Qed.

(** X16.  In a round that alerts, the urgency of the notification and the colour
    of the dialog follow the attempt index [i]: normal up to 2 and
    critical from 3 on; lightblue up to 1, orange for 2 and 3, red from 4
    on.  So a red dialog always comes with a critical notification and a
    lightblue one with a normal notification, while at attempt 3 the
    notification is critical and the dialog still orange. *)
Theorem round_colour_and_urgency (self : MedReminder) (meds : list string)
    (title : string) (w : world) :
  medicines self = Some meds → reminder_title self = Some title →
  judge self (log_file_content w) (now w) = Ok false →
  let i := reminder_count self in
  let h' := history (snd (loop_body self w)) in
  last_urgency h' = Some (if i <? 3 then normal else critical) ∧
  last_dialog_colour h'
  = Some (if 3 <? i then "red" else if 1 <? i then "orange" else "lightblue") ∧
  (last_dialog_colour h' = Some "red" → last_urgency h' = Some critical) ∧
  (last_dialog_colour h' = Some "lightblue" → last_urgency h' = Some normal) ∧
  (i = 3 → last_urgency h' = Some critical ∧ last_dialog_colour h' = Some "orange").
Proof.
  intros Hm Ht Hj i h'.
  assert (Hboth : last_urgency h' = Some (if i <? 3 then normal else critical) ∧
                  last_dialog_colour h'
                  = Some (if 3 <? i then "red"
                          else if 1 <? i then "orange" else "lightblue")).
  { subst h' i. unfold loop_body. rewrite bind_run, already_taken_today_run, Hj. simpl.
    rewrite bind_run. simpl. rewrite bind_run.
    set (w1 := emit (Print _) (emit (ReadLog _) w)).
    destruct (alert_leaves self meds w1 Hm) as (w2 & -> & _ & _ & _ & _ & Hu & _).
    simpl. rewrite bind_run.
    destruct (show_gui_reminder_colour self meds title w2 Hm Ht) as [Hc Hu3].
    rewrite Hu in Hu3.
    destruct (show_gui_reminder self w2) as [[[|]| |] w3]; simpl in *;
      try (split; assumption).
    rewrite bind_run. simpl. rewrite bind_run. unfold sleep. simpl.
    destruct (sleeps w3); simpl; split; assumption. }
  destruct Hboth as [Hu Hc]. rewrite Hu, Hc.
  split; [reflexivity|]. split; [reflexivity|].
  destruct i as [|[|[|[|n]]]]; simpl; repeat split; congruence.
Qed.

Lemma round_colour_and_urgency_fifth_attempt :
  let self := at_attempt (MedReminder_init "morning") 4 in
  let w := boot Missing march_1st true [[ClickSnooze]] [] in
  last_urgency (history (snd (loop_body self w))) = Some critical ∧
  last_dialog_colour (history (snd (loop_body self w))) = Some "red".
Proof.
  intros self w.
  destruct (round_colour_and_urgency self
              ["Elvanse 20mg"; "Escitalopram 5mg"; "Dexamfetamine 5mg"]
              "🌅 MORNING MEDICATION TIME!" w eq_refl eq_refl eq_refl)
    as (Hu & Hc & _).
  split; [exact Hu|exact Hc].
Defined.
